(** * Port Sampling Application: the data pipeline of
    [Port_Sampling_Application.py] and its specification.

    The script reads one sheet into a pandas frame, parses the composite
    "BAG ID." text of every row, derives the "Bag Scanned & Manual" column,
    builds two exception tables, filters by a date-time range and maps four
    columns into the download.  The definitions below follow the script line
    by line; pandas and Python built-ins are modelled at the level of the
    values they return. *)

From Stdlib Require Import String Ascii List ZArith Bool Arith Lia Permutation.
From Stdlib Require Import Sorted Relations_1.
Import ListNotations.

Local Open Scope string_scope.
Local Open Scope list_scope.

(** ** Python exceptions and the result of a fallible step *)

Inductive exn : Type :=
| ValueError                 (* dict(): an element is not a pair *)
| AttributeError             (* a non-string value has no [split] *)
| TypeError                  (* [', '.join] met a non-string *)
| KeyError (label : string). (* a column label that the frame lacks *)

Definition result (A : Type) : Type := (exn + A)%type.

Definition ok {A} (a : A) : result A := inr a.
Definition raise {A} (e : exn) : result A := inl e.

Definition bind {A B} (m : result A) (k : A -> result B) : result B :=
  match m with
  | inl e => inl e
  | inr a => k a
  end.

Notation "x <- m ;; k" := (bind m (fun x => k))
  (at level 61, m at next level, right associativity).

(** [[f(x) for x in xs]] where [f] may raise: the first exception wins. *)
Fixpoint mapM {A B} (f : A -> result B) (xs : list A) : result (list B) :=
  match xs with
  | [] => ok []
  | x :: xs' =>
      y <- f x ;;
      ys <- mapM f xs' ;;
      ok (y :: ys)
  end.

(** ** Python [str] operations *)

Module Str.

(** [sub in s] *)
Fixpoint contains (sub s : string) : bool :=
  prefix sub s ||
  match s with
  | EmptyString => false
  | String _ s' => contains sub s'
  end.

(** The scanner behind [s.split(sep)] for a non-empty [sep]: [cur] is the
    piece read so far, [skip] counts the characters of a separator that was
    matched and is still being stepped over. *)
Fixpoint split_go (sep : string) (skip : nat) (cur s : string)
  : list string :=
  match s with
  | EmptyString => [cur]
  | String c s' =>
      match skip with
      | S k => split_go sep k cur s'
      | O =>
          if prefix sep s
          then cur :: split_go sep (String.length sep - 1) "" s'
          else split_go sep 0 (cur ++ String c "") s'
      end
  end.

(** [s.split(sep)] *)
Definition split (sep s : string) : list string := split_go sep 0 "" s.

(** [sep.join(parts)] *)
Definition join (sep : string) (parts : list string) : string :=
  String.concat sep parts.

(** Number of non-overlapping occurrences, [s.count(sep)]. *)
Definition count (sep s : string) : nat := List.length (split sep s) - 1.

End Str.

(** ** Python [dict] with string keys: insertion-ordered *)

Definition dict (V : Type) : Type := list (string * V).

Fixpoint dict_get {V} (d : dict V) (k : string) : option V :=
  match d with
  | [] => None
  | (k', v) :: d' => if String.eqb k' k then Some v else dict_get d' k
  end.

(** [d[k] = v]: an existing key keeps its position, a new key goes last. *)
Fixpoint dict_set {V} (d : dict V) (k : string) (v : V) : dict V :=
  match d with
  | [] => [(k, v)]
  | (k', v') :: d' =>
      if String.eqb k' k then (k', v) :: d' else (k', v') :: dict_set d' k v
  end.

(** [d.update(other)] and the loop behind [dict(pairs)] and a
    comprehension: the pairs are stored from left to right. *)
Definition dict_update {V} (d : dict V) (other : list (string * V)) : dict V :=
  fold_left (fun acc kv => dict_set acc (fst kv) (snd kv)) other d.

Definition dict_keys {V} (d : dict V) : list string := map fst d.

(** ** [extract_bag_info] (lines 32-35) *)

(** One element of the generator handed to [dict(...)]: [item.split('=')]
    must have exactly two elements. *)
Definition pair_of_split (pieces : list string) : result (string * string) :=
  match pieces with
  | [k; v] => ok (k, v)
  | _ => raise ValueError
  end.

(** [dict(item.split('=') for item in bag_id.split(',') if '=' in item)] *)
Definition eq_pass (items : list string) : result (dict string) :=
  pairs <- mapM (fun item => pair_of_split (Str.split "=" item))
                (filter (Str.contains "=") items) ;;
  ok (dict_update [] pairs).

(** [{item.split(': ')[0]: item.split(': ')[1]
      for item in bag_id.split(',') if ': ' in item}] *)
Definition colon_pair (item : string) : string * string :=
  let pieces := Str.split ": " item in
  (nth 0 pieces "", nth 1 pieces "").

Definition colon_pass (items : list string) : dict string :=
  dict_update [] (map colon_pair (filter (Str.contains ": ") items)).

Definition extract_bag_info (bag_id : string) : result (dict string) :=
  let items := Str.split "," bag_id in
  parts <- eq_pass items ;;
  ok (dict_update parts (colon_pass items)).

(** ** Cells, rows and frames *)

(** The three missing values pandas knows: [float('nan')] in an object or
    float column, [NaT] in a datetime column, [None] stored by a scalar
    assignment. *)
Inductive null_kind : Type := NaN | NaT | PyNone.

(** A cell of the sheet.  [VTime t] is a [Timestamp] (nanoseconds since the
    epoch); [VOther repr] is any other non-null object (a number, a
    [datetime.time], ...), kept with the text [str] gives for it. *)
Inductive cell : Type :=
| VNull (k : null_kind)
| VStr (s : string)
| VTime (t : Z)
| VOther (repr : string).

Definition null_kind_eqb (a b : null_kind) : bool :=
  match a, b with
  | NaN, NaN | NaT, NaT | PyNone, PyNone => true
  | _, _ => false
  end.

Definition cell_eqb (a b : cell) : bool :=
  match a, b with
  | VNull k1, VNull k2 => null_kind_eqb k1 k2
  | VStr s1, VStr s2 => String.eqb s1 s2
  | VTime t1, VTime t2 => Z.eqb t1 t2
  | VOther r1, VOther r2 => String.eqb r1 r2
  | _, _ => false
  end.

(** [pd.isna] *)
Definition isna (c : cell) : bool :=
  match c with
  | VNull _ => true
  | _ => false
  end.

(** A row of a frame, as [DataFrame.apply(..., axis=1)] and boolean indexing
    see it: the values by column label.  A label of the frame that the row
    does not store reads as NaN (the fill value of [pd.concat] and of index
    alignment). *)
Definition Series : Type := dict cell.

Record DataFrame : Type := mkDataFrame {
  columns : list string;
  rows : list Series
}.

Definition in_columns (label : string) (cols : list string) : bool :=
  existsb (String.eqb label) cols.

Definition value_at (row : Series) (label : string) : cell :=
  match dict_get row label with
  | Some v => v
  | None => VNull NaN
  end.

(** [row[label]] *)
Definition getitem (cols : list string) (row : Series) (label : string)
  : result cell :=
  if in_columns label cols then ok (value_at row label)
  else raise (KeyError label).

(** [df[label]], the column as a list of cells in row order. *)
Definition column (df : DataFrame) (label : string) : result (list cell) :=
  if in_columns label (columns df) then
    ok (map (fun row => value_at row label) (rows df))
  else raise (KeyError label).

(** [df[mask]] *)
Fixpoint mask_rows (mask : list bool) (rs : list Series) : list Series :=
  match mask, rs with
  | b :: mask', r :: rs' =>
      if b then r :: mask_rows mask' rs' else mask_rows mask' rs'
  | _, _ => []
  end.

Definition add_column (cols : list string) (label : string) : list string :=
  if in_columns label cols then cols else cols ++ [label].

(** [df[label] = values] where [values] carries the index of [df], or where
    [df] has no rows yet and takes its index from [values]. *)
Fixpoint set_rows (label : string) (rs : list Series) (values : list cell)
  : list Series :=
  match rs, values with
  | r :: rs', v :: values' => dict_set r label v :: set_rows label rs' values'
  | _, _ => []
  end.

Definition setitem (df : DataFrame) (label : string) (values : list cell)
  : DataFrame :=
  let rs := match rows df with
            | [] => map (fun _ => []) values
            | rs => rs
            end in
  mkDataFrame (add_column (columns df) label) (set_rows label rs values).

(** [df[label] = scalar] *)
Definition setitem_scalar (df : DataFrame) (label : string) (v : cell)
  : DataFrame :=
  mkDataFrame (add_column (columns df) label)
              (map (fun r => dict_set r label v) (rows df)).

(** [Series.unique()]: first occurrences, in order. *)
Fixpoint unique (vals : list cell) : list cell :=
  match vals with
  | [] => []
  | v :: vals' => v :: filter (fun w => negb (cell_eqb v w)) (unique vals')
  end.

Fixpoint unique_str (vals : list string) : list string :=
  match vals with
  | [] => []
  | v :: vals' => v :: filter (fun w => negb (String.eqb v w)) (unique_str vals')
  end.

(** [Series.dropna()] *)
Definition dropna (vals : list cell) : list cell :=
  filter (fun v => negb (isna v)) vals.

Fixpoint insert_by {A} (leb : A -> A -> bool) (x : A) (l : list A) : list A :=
  match l with
  | [] => [x]
  | y :: l' => if leb x y then x :: l else y :: insert_by leb x l'
  end.

Fixpoint sort_by {A} (leb : A -> A -> bool) (l : list A) : list A :=
  match l with
  | [] => []
  | x :: l' => insert_by leb x (sort_by leb l')
  end.

(** Order of the group keys under [groupby(..., sort=True)].  The keys of
    this program are strings, compared as Python compares [str]; the order
    across the other kinds of cell only makes the comparison total. *)
Definition cell_rank (c : cell) : nat :=
  match c with
  | VTime _ => 0
  | VOther _ => 1
  | VStr _ => 2
  | VNull _ => 3
  end.

Definition cell_leb (a b : cell) : bool :=
  match a, b with
  | VStr s1, VStr s2 => String.leb s1 s2
  | VTime t1, VTime t2 => Z.leb t1 t2
  | VOther r1, VOther r2 => String.leb r1 r2
  | _, _ => Nat.leb (cell_rank a) (cell_rank b)
  end.

(** ** The column labels of the script *)

Definition added_time_column : string := "Added Time".
Definition bag_id_column : string := "BAG ID.".
Definition kico_seal_column : string := "AHK SEAL NO.".
Definition scanned_column : string := "Bag Scanned & Manual".

(** [sort_values(by="Added Time", ascending=False)]: latest first, NaT last.
    The order pandas gives to rows of equal time is left to its sorting
    routine; here they keep their order. *)
Definition time_desc_leb (r1 r2 : Series) : bool :=
  match value_at r1 added_time_column, value_at r2 added_time_column with
  | VTime t1, VTime t2 => Z.leb t2 t1
  | VTime _, _ => true
  | _, VTime _ => false
  | _, _ => true
  end.

Definition sort_values_desc (df : DataFrame) : DataFrame :=
  mkDataFrame (columns df) (sort_by time_desc_leb (rows df)).

(** ** Lines 39-42: parsing every non-null "BAG ID." and joining the result *)

(** [df[bag_id_column].dropna().apply(extract_bag_info)]: [None] marks a row
    that [dropna] removed. *)
Definition parse_cell (c : cell) : result (option (dict string)) :=
  match c with
  | VNull _ => ok None
  | VStr s => parts <- extract_bag_info s ;; ok (Some parts)
  | VTime _ | VOther _ => raise AttributeError
  end.

Definition parsed_fields (row : Series) : result (option (dict string)) :=
  parse_cell (value_at row bag_id_column).

(** [.apply(pd.Series)]: the columns of [bag_info_df] are the keys met, in
    order of first appearance. *)
Definition info_columns (infos : list (option (dict string))) : list string :=
  unique_str
    (flat_map (fun o => match o with
                        | Some parts => dict_keys parts
                        | None => []
                        end) infos).

Definition info_series (o : option (dict string)) : Series :=
  match o with
  | Some parts => map (fun kv => (fst kv, VStr (snd kv))) parts
  | None => []
  end.

(** [pd.concat([df, bag_info_df], axis=1)].  The labels of the sheet are
    taken to differ from the parsed keys: pandas would keep two columns of
    one label, which a row of this model cannot hold. *)
Definition concat_info (df : DataFrame) (infos : list (option (dict string)))
  : DataFrame :=
  mkDataFrame (columns df ++ info_columns infos)
              (map (fun ri => fst ri ++ info_series (snd ri))
                   (combine (rows df) infos)).

(** ** Lines 44-131: the tables built from the combined frame *)

Section Pipeline.

(** The text pandas gives for a [Timestamp] ([str], [astype(str)]); the
    format is the library's and is left open. *)
Variable timestamp_str : Z -> string.

(** [str(x)] and, per value, [Series.astype(str)] *)
Definition py_str (c : cell) : string :=
  match c with
  | VNull NaN => "nan"
  | VNull NaT => "NaT"
  | VNull PyNone => "None"
  | VStr s => s
  | VTime t => timestamp_str t
  | VOther repr => repr
  end.

(** Lines 45-48, the lambda:
    [row["Bag"] if len(str(row[bag_id_column])) > 20 else row[bag_id_column]] *)
Definition bag_scanned_manual (cols : list string) (row : Series)
  : result cell :=
  bag_id <- getitem cols row bag_id_column ;;
  if Nat.ltb 20 (String.length (py_str bag_id))
  then getitem cols row "Bag"
  else getitem cols row bag_id_column.

(** Lines 39-51: [combined_df].  What [DataFrame.apply] returns for a
    frame without rows is not modelled: such a sheet is combined into a frame
    without rows. *)
Definition combined_df (df : DataFrame) : result DataFrame :=
  infos <- mapM parsed_fields (rows df) ;;
  let joined := concat_info df infos in
  scanned <- mapM (bag_scanned_manual (columns joined)) (rows joined) ;;
  ok (sort_values_desc (setitem joined scanned_column scanned)).

(** Line 59: [duplicated(subset=[...], keep=False)] marks every row whose
    value occurs more than once; missing values count as equal. *)
Definition occurrences (v : cell) (vals : list cell) : nat :=
  List.length (filter (cell_eqb v) vals).

Definition duplicated (vals : list cell) : list bool :=
  map (fun v => Nat.leb 2 (occurrences v vals)) vals.

Definition duplicates_df (cdf : DataFrame) : result DataFrame :=
  vals <- column cdf scanned_column ;;
  ok (mkDataFrame (columns cdf) (mask_rows (duplicated vals) (rows cdf))).

(** Line 60: [groupby("Bag Scanned & Manual")] with the defaults
    [sort=True, dropna=True]: one group per non-null key, keys sorted. *)
Definition group_keys (vals : list cell) : list cell :=
  sort_by cell_leb (unique (dropna vals)).

Definition get_group (label : string) (key : cell) (rs : list Series)
  : list Series :=
  filter (fun r => cell_eqb (value_at r label) key) rs.

(** [', '.join(...)] over the cells of an object column. *)
Definition as_text (c : cell) : result string :=
  match c with
  | VStr s => ok s
  | _ => raise TypeError
  end.

(** Lines 61-67, the lambda applied to one group. *)
Definition summarize (cols : list string) (group : list Series)
  : result Series :=
  let g := mkDataFrame cols group in
  times <- column g added_time_column ;;
  ids <- column g scanned_column ;;
  seals <- column g kico_seal_column ;;
  seal <- column g "Seal" ;;
  lot <- column g "Lot" ;;
  lots <- mapM as_text (unique (dropna lot)) ;;
  ok [("Added Time", VStr (Str.join ", " (unique_str (map py_str times))));
      ("Bag Scanned & Manual", hd (VNull NaN) ids);
      ("AHK SEAL NO.",
       VStr (Str.join ", " (unique_str (map py_str (dropna seals)))));
      ("Seal", VStr (Str.join ", " (unique_str (map py_str (dropna seal)))));
      ("Lot", VStr (Str.join ", " lots))].

(** Lines 59-68: the rows of [grouped_duplicates]. *)
Definition grouped_duplicates (cdf : DataFrame) : result (list Series) :=
  dups <- duplicates_df cdf ;;
  keys <- column dups scanned_column ;;
  mapM (fun key =>
          summarize (columns dups) (get_group scanned_column key (rows dups)))
       (group_keys keys).

(** Line 74, [.str]: the accessor refuses a column that holds no text at
    all, such as the float column read from a sheet whose "BAG ID." cells are
    all empty; a column without rows is accepted. *)
Definition is_text (c : cell) : bool :=
  match c with
  | VStr _ => true
  | _ => false
  end.

Definition str_accessor (vals : list cell) : result (list cell) :=
  match vals with
  | [] => ok []
  | _ :: _ => if existsb is_text vals then ok vals else raise AttributeError
  end.

(** [.str.len()] is NaN on a value that is not a string, and
    [between(16, 25)] is false on NaN. *)
Definition str_len (c : cell) : option nat :=
  match c with
  | VStr s => Some (String.length s)
  | _ => None
  end.

Definition between (lo hi : nat) (x : option nat) : bool :=
  match x with
  | Some n => Nat.leb lo n && Nat.leb n hi
  | None => false
  end.

Definition length_exception_df (cdf : DataFrame) : result DataFrame :=
  ids <- column cdf bag_id_column ;;
  texts <- str_accessor ids ;;
  ok (mkDataFrame (columns cdf)
        (mask_rows (map (fun c => between 16 25 (str_len c)) texts)
                   (rows cdf))).

(** Lines 94-95: comparisons of a datetime column with a [Timestamp]; NaT
    compares false. *)
Definition ge_time (c : cell) (bound : Z) : bool :=
  match c with
  | VTime t => Z.leb bound t
  | _ => false
  end.

Definition le_time (c : cell) (bound : Z) : bool :=
  match c with
  | VTime t => Z.leb t bound
  | _ => false
  end.

Definition combined_df_for_download
  (cdf : DataFrame) (start_datetime end_datetime : Z) : result DataFrame :=
  times <- column cdf added_time_column ;;
  ok (mkDataFrame (columns cdf)
        (mask_rows
           (map (fun c => ge_time c start_datetime && le_time c end_datetime)
                times)
           (rows cdf))).

(** Lines 98-103 *)
Definition column_mappings : list (string * string) :=
  [("Bag Scanned & Manual", "name");
   ("AHK SEAL NO.", "PRN_AHK_SEAL");
   ("WAREHOUSE PLATFORM SCALE GROSS WEIGHT (KG)", "PRN_WH_GROSS_WEIGHT");
   ("SAMPLING TIME", "BAG_AHK_LP_SAMPLING_TS")].

Definition column_values (df : DataFrame) (label : string) : list cell :=
  map (fun row => value_at row label) (rows df).

(** Line 117: [astype(str) + "+02:00"] on one value. *)
Definition add_offset (c : cell) : cell := VStr (py_str c ++ "+02:00").

(** Lines 115-117, which sit inside the body of the loop of line 107. *)
Definition append_offsets (mapped : DataFrame) : DataFrame :=
  fold_left
    (fun acc col =>
       if in_columns col (columns acc)
       then setitem acc col (map add_offset (column_values acc col))
       else acc)
    ["BAG_AHK_LP_SAMPLING_TS"] mapped.

(** Lines 108-117: one turn of the loop over [column_mappings]. *)
Definition mapping_step (source mapped : DataFrame) (m : string * string)
  : DataFrame :=
  let (original_col, new_col) := m in
  append_offsets
    (if in_columns original_col (columns source)
     then setitem mapped new_col (column_values source original_col)
     else setitem_scalar mapped new_col (VNull PyNone)).

(** Lines 106-117 *)
Definition mapped_df_for_download (source : DataFrame) : DataFrame :=
  fold_left (mapping_step source) column_mappings (mkDataFrame [] []).

(** ** Lines 13-134: one run on the frame read from the sheet *)

Record Tables : Type := mkTables {
  shown_combined : DataFrame;
  shown_duplicates : list Series;
  shown_length_exceptions : DataFrame;
  download : DataFrame
}.

Inductive outcome : Type :=
| Stopped                 (* line 23: no "Added Time" column *)
| Skipped                 (* line 30: a required column is absent *)
| Shown (t : Tables)
| Failed (e : exn).       (* line 133 *)

(** [df] is the frame after line 20: its "Added Time" cells are [VTime] or
    NaT. *)
Definition run (df : DataFrame) (start_datetime end_datetime : Z) : outcome :=
  if negb (in_columns added_time_column (columns df)) then Stopped
  else if negb (in_columns bag_id_column (columns df)
                && in_columns kico_seal_column (columns df)) then Skipped
  else
    match
      cdf <- combined_df df ;;
      dup <- grouped_duplicates cdf ;;
      len <- length_exception_df cdf ;;
      sel <- combined_df_for_download cdf start_datetime end_datetime ;;
      ok (mkTables cdf dup len (mapped_df_for_download sel))
    with
    | inr t => Shown t
    | inl e => Failed e
    end.

End Pipeline.

(** ** Vocabulary of the statements *)

(** The value a key ends up with when pairs are stored from left to right:
    that of its last pair. *)
Fixpoint last_binding {V} (pairs : list (string * V)) (k : string) : option V :=
  match pairs with
  | [] => None
  | (k', v) :: pairs' =>
      match last_binding pairs' k with
      | Some w => Some w
      | None => if String.eqb k' k then Some v else None
      end
  end.

(** The number of times a character occurs in a string. *)
Fixpoint char_count (c : ascii) (s : string) : nat :=
  match s with
  | EmptyString => 0
  | String a s' => (if Ascii.eqb a c then 1 else 0) + char_count c s'
  end.

(** The pairs the two passes of [extract_bag_info] store. *)
Definition eq_pairs (items : list string) : result (list (string * string)) :=
  mapM (fun item => pair_of_split (Str.split "=" item))
       (filter (Str.contains "=") items).

Definition colon_pairs (items : list string) : list (string * string) :=
  map colon_pair (filter (Str.contains ": ") items).

(** The "Bag" sub-field of a row's parsed fields, as the joined frame shows
    it: NaN when the row was not parsed or has no such key. *)
Definition bag_field (parsed : option (dict string)) : cell :=
  match parsed with
  | Some parts =>
      match dict_get parts "Bag" with
      | Some v => VStr v
      | None => VNull NaN
      end
  | None => VNull NaN
  end.

(** The value under "SAMPLING TIME" that the export starts from. *)
Definition sampling_time (source : DataFrame) (row : Series) : cell :=
  if in_columns "SAMPLING TIME" (columns source)
  then value_at row "SAMPLING TIME"
  else VNull PyNone.

(** A frame whose rows hold cells only under its column labels. *)
Definition well_formed (df : DataFrame) : Prop :=
  Forall (fun row => incl (dict_keys row) (columns df)) (rows df).

Definition ScannedId (row : Series) : cell := value_at row scanned_column.
Definition BagId (row : Series) : cell := value_at row bag_id_column.
Definition AddedTime (row : Series) : cell := value_at row added_time_column.



(** A "BAG ID." that the parser accepts: missing, or a text. *)
Definition text_or_missing (c : cell) : Prop :=
  isna c = true \/ exists s, c = VStr s.

(** A tag as a scanner writes it: [key=value] pairs joined by commas. *)
Definition format_pairs (pairs : list (string * string)) : string :=
  Str.join "," (map (fun kv => fst kv ++ "=" ++ snd kv)%string pairs).

(** A pair that [format_pairs] can carry: no comma and no ["="] in the key
    or in the value, and no [": "] in the segment written for it. *)
Definition plain_pair (kv : string * string) : Prop :=
  char_count "," (fst kv) = 0 /\ char_count "," (snd kv) = 0 /\
  char_count "=" (fst kv) = 0 /\ char_count "=" (snd kv) = 0 /\
  Str.contains ": " (fst kv ++ "=" ++ snd kv) = false.

(** [r] shows every cell of the sheet row [row] unchanged, the column of
    line 45 apart. *)
Definition carries (row r : Series) : Prop :=
  forall label, In label (dict_keys row) -> label <> scanned_column ->
                value_at r label = value_at row label.

(** What line 109 or line 111 stores for a column of the sheet. *)
Definition export_values (source : DataFrame) (original_col : string)
  : list cell :=
  if in_columns original_col (columns source)
  then map (fun row => value_at row original_col) (rows source)
  else map (fun _ => VNull PyNone) (rows source).

(** The order of line 51 between a row and a later row of the frame:
    no earlier "Added Time", and rows without one at the end. *)
Definition time_order (r1 r2 : Series) : Prop :=
  match AddedTime r1, AddedTime r2 with
  | VTime t1, VTime t2 => (t2 <= t1)%Z
  | VTime _, _ => True
  | _, VTime _ => False
  | _, _ => True
  end.


(** ** Sample sheets for the examples *)

Definition sample_str : Z -> string := fun _ => "2024-01-01 12:00:00".

Definition sheet_columns : list string :=
  ["Added Time"; "BAG ID."; "AHK SEAL NO."].

Definition sheet_row (added_time bag_id : cell) : Series :=
  [("Added Time", added_time); ("BAG ID.", bag_id);
   ("AHK SEAL NO.", VStr "S1")].

(** A scanned tag, a manual code, and a row without "BAG ID.". *)
Definition sheet_mixed : DataFrame :=
  mkDataFrame sheet_columns
    [sheet_row (VTime 5) (VStr "Bag=B1,Seal=X,Lot=L1,pad=0123456789");
     sheet_row (VTime 7) (VStr "B1");
     sheet_row (VTime 9) (VNull NaN);
     sheet_row (VTime 1) (VStr "Seal=X,Lot=L1,pad=0123456789ABCDEF")].


(** Two rows without "BAG ID." and one scanned tag. *)
Definition sheet_nulls : DataFrame :=
  mkDataFrame sheet_columns
    [sheet_row (VTime 1) (VNull NaN);
     sheet_row (VTime 2) (VNull NaN);
     sheet_row (VTime 3) (VStr "Bag=B1,Seal=X,Lot=L1,pad=0123456789")].

(** No "BAG ID." at all. *)
Definition sheet_empty_ids : DataFrame :=
  mkDataFrame sheet_columns
    [sheet_row (VTime 1) (VNull NaN); sheet_row (VTime 2) (VNull NaN)].

(** Manual codes only: "A", "A", "B". *)
Definition sheet_codes : DataFrame :=
  mkDataFrame sheet_columns
    [sheet_row (VTime 1) (VStr "A");
     sheet_row (VTime 2) (VStr "A");
     sheet_row (VTime 3) (VStr "B")].

(** * Properties *)

(** ** The result monad *)

Lemma bind_ok {A B} (m : result A) (k : A -> result B) (b : B) :
  bind m k = ok b -> exists a, m = ok a /\ k a = ok b.
Proof.
  destruct m as [e | a]; simpl; intros H.
  - discriminate H.
  - exists a. split; [reflexivity | exact H].
Qed.

Lemma mapM_ok_Forall2 {A B} (f : A -> result B) (xs : list A) (ys : list B) :
  mapM f xs = ok ys <-> Forall2 (fun x y => f x = ok y) xs ys.
Proof.
  revert ys. induction xs as [| x xs IH]; intros ys; simpl.
  - split; intros H.
    + injection H as <-. constructor.
    + inversion H. reflexivity.
  - split; intros H.
    + apply bind_ok in H as (y & Hy & H).
      apply bind_ok in H as (ys' & Hys & H).
      injection H as <-. constructor; [exact Hy | now apply IH].
    + inversion H as [| ? y ? ys' Hy Hys]; subst.
      rewrite Hy. simpl. apply IH in Hys. rewrite Hys. reflexivity.
Qed.

Lemma mapM_ok_In {A B} (f : A -> result B) xs ys y :
  mapM f xs = ok ys -> In y ys -> exists x, In x xs /\ f x = ok y.
Proof.
  intros H. apply mapM_ok_Forall2 in H.
  induction H as [| x y' xs ys Hxy _ IH]; simpl; intros Hin.
  - contradiction.
  - destruct Hin as [-> | Hin].
    + exists x. auto.
    + destruct (IH Hin) as (x' & Hx' & Hf). exists x'. auto.
Qed.

Lemma mapM_total {A B} (f : A -> result B) xs :
  Forall (fun x => exists y, f x = ok y) xs -> exists ys, mapM f xs = ok ys.
Proof.
  induction 1 as [| x xs (y & Hy) _ (ys & Hys)]; simpl.
  - exists []. reflexivity.
  - rewrite Hy, Hys. simpl. eexists. reflexivity.
Qed.

Lemma mapM_ok_all {A B} (f : A -> result B) xs ys :
  mapM f xs = ok ys -> Forall (fun x => exists y, f x = ok y) xs.
Proof.
  intros H. apply mapM_ok_Forall2 in H.
  induction H; constructor; eauto.
Qed.

(** ** Strings: [in], [split] and [join] *)

Lemma append_empty_r (s : string) : (s ++ "")%string = s.
Proof. induction s; simpl; congruence. Qed.

Lemma append_assoc (a b c : string) :
  ((a ++ b) ++ c = a ++ (b ++ c))%string.
Proof. induction a; simpl; congruence. Qed.

Lemma length_append (a b : string) :
  String.length (a ++ b) = String.length a + String.length b.
Proof. induction a; simpl; congruence. Qed.

Lemma prefix_append (p s : string) :
  prefix p s = true <-> exists r, s = (p ++ r)%string.
Proof.
  revert s. induction p as [| a p IH]; intros s.
  - split; [intros _; exists s; reflexivity | intros _; now destruct s].
  - destruct s as [| b s]; simpl.
    + split; [discriminate | intros (r & Hr); discriminate Hr].
    + destruct (ascii_dec a b) as [-> | Hne].
      * rewrite IH. split; intros (r & Hr); exists r; congruence.
      * split; [discriminate | intros (r & Hr); congruence].
Qed.

Lemma split_go_nonempty sep skip cur s : Str.split_go sep skip cur s <> [].
Proof.
  revert skip cur.
  induction s as [| c s IH]; intros skip cur; cbn [Str.split_go].
  - discriminate.
  - destruct skip as [| k]; [| apply IH].
    destruct (prefix sep (String c s)); [discriminate | apply IH].
Qed.

(** Stepping over the rest of a matched separator. *)
Lemma split_go_skip sep cur p r :
  Str.split_go sep (String.length p) cur (p ++ r) = Str.split_go sep 0 cur r.
Proof. induction p as [| a p IH]; simpl; auto. Qed.

Lemma split_go_match sep cur r :
  sep <> "" ->
  Str.split_go sep 0 cur (sep ++ r) = cur :: Str.split_go sep 0 "" r.
Proof.
  intros Hsep. destruct sep as [| a sep]; [contradiction |].
  change (String a sep ++ r)%string with (String a (sep ++ r)).
  cbn [Str.split_go].
  assert (Hp : prefix (String a sep) (String a (sep ++ r)) = true).
  { apply prefix_append. exists r. reflexivity. }
  rewrite Hp. cbn [String.length]. rewrite Nat.sub_succ, Nat.sub_0_r.
  now rewrite split_go_skip.
Qed.

Lemma split_go_char sep cur c s :
  prefix sep (String c s) = false ->
  Str.split_go sep 0 cur (String c s)
  = Str.split_go sep 0 (cur ++ String c "") s.
Proof. intros H. cbn [Str.split_go]. now rewrite H. Qed.

Lemma concat_cons sep x l :
  l <> [] ->
  String.concat sep (x :: l) = (x ++ sep ++ String.concat sep l)%string.
Proof. destruct l; [contradiction | reflexivity]. Qed.

(** A string is cut at a match or it grows the current piece: induction on
    the length of what is left to read. *)
Lemma split_go_ind (sep : string) (P : string -> string -> Prop) :
  sep <> "" ->
  (forall cur, P cur "") ->
  (forall cur r, P "" r -> P cur (sep ++ r)%string) ->
  (forall cur c s, prefix sep (String c s) = false ->
                   P (cur ++ String c "")%string s -> P cur (String c s)) ->
  forall cur s, P cur s.
Proof.
  intros Hsep Hnil Hmatch Hchar cur s.
  remember (String.length s) as n eqn:Hn.
  revert cur s Hn. induction n as [n IH] using lt_wf_ind. intros cur s Hn.
  destruct s as [| c s]; [apply Hnil |].
  destruct (prefix sep (String c s)) eqn:Hp.
  - apply prefix_append in Hp as (r & Hr). rewrite Hr.
    apply Hmatch. apply (IH (String.length r)); [| reflexivity].
    subst n. rewrite Hr, length_append.
    destruct sep; [contradiction | simpl; lia].
  - apply Hchar; [exact Hp |].
    apply (IH (String.length s)); [subst n; simpl; lia | reflexivity].
Qed.

(** [sep.join(s.split(sep)) == s] *)
Lemma split_go_join sep cur s :
  sep <> "" -> Str.join sep (Str.split_go sep 0 cur s) = (cur ++ s)%string.
Proof.
  intros Hsep. unfold Str.join.
  apply (split_go_ind sep
           (fun cur s =>
              String.concat sep (Str.split_go sep 0 cur s) = (cur ++ s)%string)
           Hsep); clear cur s.
  - intros cur. simpl. now rewrite append_empty_r.
  - intros cur r IH. rewrite split_go_match by exact Hsep.
    rewrite concat_cons by apply split_go_nonempty.
    rewrite IH. reflexivity.
  - intros cur c s Hp IH. rewrite split_go_char by exact Hp.
    rewrite IH, append_assoc. reflexivity.
Qed.

Lemma join_split sep s : sep <> "" -> Str.join sep (Str.split sep s) = s.
Proof. intros Hsep. unfold Str.split. now rewrite split_go_join. Qed.

Lemma contains_unfold sub s :
  Str.contains sub s
  = prefix sub s || match s with
                    | EmptyString => false
                    | String _ s' => Str.contains sub s'
                    end.
Proof. destruct s; reflexivity. Qed.

Lemma contains_append sub s :
  Str.contains sub s = true <-> exists a b, s = (a ++ sub ++ b)%string.
Proof.
  split.
  - induction s as [| c s IH]; rewrite contains_unfold; intros H;
      apply orb_true_iff in H as [H | H].
    + apply prefix_append in H as (r & Hr). exists "", r. exact Hr.
    + discriminate H.
    + apply prefix_append in H as (r & Hr). exists "", r. exact Hr.
    + destruct (IH H) as (a & b & Hab). exists (String c a), b.
      simpl. now rewrite Hab.
  - intros (a & b & ->). induction a as [| c a IH].
    + rewrite contains_unfold. apply orb_true_iff. left.
      apply prefix_append. exists b. reflexivity.
    + change (String c a ++ sub ++ b)%string
        with (String c (a ++ sub ++ b)%string).
      rewrite contains_unfold, IH. apply orb_true_r.
Qed.

Lemma contains_false_split_go sep cur s :
  Str.contains sep s = false ->
  Str.split_go sep 0 cur s = [(cur ++ s)%string].
Proof.
  revert cur. induction s as [| c s IH]; intros cur H.
  - simpl. now rewrite append_empty_r.
  - rewrite contains_unfold in H. apply orb_false_iff in H as [Hp Hc].
    rewrite split_go_char by exact Hp.
    rewrite IH by exact Hc. now rewrite append_assoc.
Qed.

Lemma contains_true_split_go sep cur s :
  sep <> "" -> Str.contains sep s = true ->
  2 <= List.length (Str.split_go sep 0 cur s).
Proof.
  intros Hsep. revert cur. induction s as [| c s IH]; intros cur H.
  - destruct sep; [contradiction | discriminate H].
  - rewrite contains_unfold in H. cbn [Str.split_go].
    destruct (prefix sep (String c s)) eqn:Hp.
    + pose proof (split_go_nonempty sep (String.length sep - 1) "" s) as Hne.
      destruct (Str.split_go sep (String.length sep - 1) "" s);
        [contradiction | simpl; lia].
    + apply IH. exact H.
Qed.

Lemma contains_false_split sep s :
  Str.contains sep s = false -> Str.split sep s = [s].
Proof. intros H. unfold Str.split. now rewrite contains_false_split_go. Qed.

Lemma contains_true_split sep s :
  sep <> "" -> Str.contains sep s = true ->
  exists a b more, Str.split sep s = a :: b :: more.
Proof.
  intros Hsep H.
  pose proof (contains_true_split_go sep "" s Hsep H) as Hlen.
  fold (Str.split sep s) in Hlen.
  destruct (Str.split sep s) as [| a [| b more]]; simpl in Hlen; try lia.
  eauto.
Qed.

Lemma snoc_decompose (cur a b : string) (c : ascii) :
  (cur ++ String c "")%string = (a ++ b)%string -> b <> "" ->
  exists b', b = (b' ++ String c "")%string /\ cur = (a ++ b')%string.
Proof.
  revert cur. induction a as [| x a IH]; intros cur H Hb; simpl in H.
  - exists cur. auto.
  - destruct cur as [| y cur]; simpl in H.
    + injection H as _ H. destruct a; [| discriminate H].
      simpl in H. congruence.
    + injection H as -> H. destruct (IH cur H Hb) as (b' & -> & ->).
      exists b'. auto.
Qed.

(** No piece of [s.split(sep)] contains [sep]: every cut is made at the
    first place the separator can be read. *)
Lemma split_go_pieces sep cur s :
  sep <> "" ->
  (forall a b, cur = (a ++ b)%string -> b <> "" ->
               prefix sep (b ++ s) = false) ->
  Forall (fun p => Str.contains sep p = false) (Str.split_go sep 0 cur s).
Proof.
  intros Hsep.
  assert (Hhead : forall cur s,
    (forall a b, cur = (a ++ b)%string -> b <> "" ->
                 prefix sep (b ++ s) = false) ->
    Str.contains sep cur = false).
  { clear cur s. intros cur s Inv.
    destruct (Str.contains sep cur) eqn:Hc; [| reflexivity].
    apply contains_append in Hc as (a & b & Hab).
    assert (Hne : (sep ++ b)%string <> "") by (destruct sep; [easy | discriminate]).
    specialize (Inv a (sep ++ b)%string Hab Hne).
    assert (Ht : prefix sep ((sep ++ b) ++ s) = true).
    { apply prefix_append. exists (b ++ s)%string. apply append_assoc. }
    congruence. }
  apply (split_go_ind sep
    (fun cur s =>
       (forall a b, cur = (a ++ b)%string -> b <> "" ->
                    prefix sep (b ++ s) = false) ->
       Forall (fun p => Str.contains sep p = false)
              (Str.split_go sep 0 cur s)) Hsep); clear cur s.
  - intros cur Inv. simpl. constructor; [| constructor].
    apply (Hhead cur "" Inv).
  - intros cur r IH Inv. rewrite split_go_match by exact Hsep.
    constructor; [apply (Hhead _ _ Inv) |].
    apply IH. intros a b Hab Hb. destruct a, b; try discriminate Hab.
    contradiction.
  - intros cur c s Hp IH Inv. rewrite split_go_char by exact Hp.
    apply IH. intros a b Hab Hb.
    destruct (snoc_decompose _ _ _ _ Hab Hb) as (b' & -> & ->).
    rewrite append_assoc. simpl.
    destruct b' as [| y b']; [exact Hp |].
    apply (Inv a (String y b')); [reflexivity | discriminate].
Qed.

Lemma split_pieces sep s :
  sep <> "" -> Forall (fun p => Str.contains sep p = false) (Str.split sep s).
Proof.
  intros Hsep. apply split_go_pieces; [exact Hsep |].
  intros a b Hab Hb. destruct a, b; try discriminate Hab. contradiction.
Qed.

(** Every piece is no longer than the string it was cut from. *)
Lemma join_length_In sep l p :
  In p l -> String.length p <= String.length (Str.join sep l).
Proof.
  unfold Str.join. induction l as [| x l IH]; intros Hin; [contradiction |].
  destruct l as [| y l].
  - destruct Hin as [-> | []]. simpl. lia.
  - rewrite concat_cons by discriminate. rewrite !length_append.
    destruct Hin as [-> | Hin]; [lia |]. specialize (IH Hin). lia.
Qed.

Lemma split_length_In sep s p :
  sep <> "" -> In p (Str.split sep s) -> String.length p <= String.length s.
Proof.
  intros Hsep Hin.
  pose proof (join_length_In sep (Str.split sep s) p Hin) as H.
  now rewrite join_split in H.
Qed.

(** ** Dictionaries *)

Lemma dict_get_set {V} (d : dict V) k v k' :
  dict_get (dict_set d k v) k'
  = if String.eqb k k' then Some v else dict_get d k'.
Proof.
  induction d as [| [k0 v0] d IH]; simpl.
  - reflexivity.
  - destruct (String.eqb_spec k0 k) as [-> | Hne]; simpl.
    + destruct (String.eqb k k'); reflexivity.
    + rewrite IH. destruct (String.eqb_spec k0 k') as [-> | Hne'].
      * apply String.eqb_neq in Hne. rewrite String.eqb_sym in Hne.
        now rewrite Hne.
      * reflexivity.
Qed.

Lemma dict_get_update {V} (d : dict V) pairs k :
  dict_get (dict_update d pairs) k
  = match last_binding pairs k with
    | Some v => Some v
    | None => dict_get d k
    end.
Proof.
  unfold dict_update. revert d.
  induction pairs as [| [k1 v1] pairs IH]; intros d; simpl.
  - reflexivity.
  - rewrite IH, dict_get_set.
    destruct (last_binding pairs k); [reflexivity |].
    destruct (String.eqb k1 k); reflexivity.
Qed.

Lemma last_binding_In {V} (pairs : list (string * V)) k v :
  last_binding pairs k = Some v -> In (k, v) pairs.
Proof.
  induction pairs as [| [k1 v1] pairs IH]; simpl; [discriminate |].
  destruct (last_binding pairs k) as [w |].
  - intros H. right. apply IH. exact H.
  - destruct (String.eqb_spec k1 k) as [-> | Hne]; [| discriminate].
    intros H. injection H as ->. now left.
Qed.

Lemma In_last_binding {V} (pairs : list (string * V)) k v :
  In (k, v) pairs -> exists w, last_binding pairs k = Some w.
Proof.
  induction pairs as [| [k1 v1] pairs IH]; simpl; [contradiction |].
  intros [H | H].
  - injection H as -> ->. destruct (last_binding pairs k); eauto.
    rewrite String.eqb_refl. eauto.
  - destruct (IH H) as (w & ->). eauto.
Qed.

Lemma dict_get_None {V} (d : dict V) k :
  dict_get d k = None <-> ~ In k (dict_keys d).
Proof.
  induction d as [| [k1 v1] d IH]; simpl.
  - tauto.
  - destruct (String.eqb_spec k1 k) as [-> | Hne].
    + split; [discriminate | intros H; exfalso; apply H; now left].
    + rewrite IH. tauto.
Qed.

Lemma dict_get_Some_keys {V} (d : dict V) k v :
  dict_get d k = Some v -> In k (dict_keys d).
Proof.
  intros H. destruct (in_dec string_dec k (dict_keys d)) as [Hin | Hn].
  - exact Hin.
  - apply dict_get_None in Hn. congruence.
Qed.

Lemma dict_set_keys {V} (d : dict V) k v k' :
  In k' (dict_keys (dict_set d k v)) <-> k' = k \/ In k' (dict_keys d).
Proof.
  induction d as [| [k1 v1] d IH]; simpl.
  - intuition congruence.
  - destruct (String.eqb_spec k1 k) as [-> | Hne]; simpl.
    + intuition congruence.
    + rewrite IH. tauto.
Qed.

Lemma dict_set_NoDup {V} (d : dict V) k v :
  NoDup (dict_keys d) -> NoDup (dict_keys (dict_set d k v)).
Proof.
  induction d as [| [k1 v1] d IH]; simpl; intros H.
  - constructor; [easy | constructor].
  - inversion H as [| ? ? Hn Hd]; subst.
    destruct (String.eqb_spec k1 k) as [-> | Hne]; simpl.
    + constructor; assumption.
    + constructor; [| apply IH, Hd].
      rewrite dict_set_keys. intros [Heq | Hin]; [congruence | contradiction].
Qed.

Lemma dict_update_NoDup {V} (d : dict V) pairs :
  NoDup (dict_keys d) -> NoDup (dict_keys (dict_update d pairs)).
Proof.
  unfold dict_update. revert d.
  induction pairs as [| [k v] pairs IH]; intros d H; simpl.
  - exact H.
  - apply IH, dict_set_NoDup, H.
Qed.

Lemma last_binding_dict {V} (d : dict V) k :
  NoDup (dict_keys d) -> last_binding d k = dict_get d k.
Proof.
  induction d as [| [k1 v1] d IH]; simpl; intros H; [reflexivity |].
  inversion H as [| ? ? Hn Hd]; subst. rewrite (IH Hd).
  destruct (String.eqb_spec k1 k) as [-> | Hne].
  - apply dict_get_None in Hn. now rewrite Hn.
  - destruct (dict_get d k); reflexivity.
Qed.

(** ** [extract_bag_info] *)

Lemma comma_nonempty : "," <> "".
Proof. discriminate. Qed.

Lemma equals_nonempty : "=" <> "".
Proof. discriminate. Qed.

Lemma colon_nonempty : ": " <> "".
Proof. discriminate. Qed.

Lemma eq_pass_pairs items :
  eq_pass items = (pairs <- eq_pairs items ;; ok (dict_update [] pairs)).
Proof. reflexivity. Qed.

Lemma colon_pass_pairs items :
  colon_pass items = dict_update [] (colon_pairs items).
Proof. reflexivity. Qed.

(** What the returned mapping holds under a key: the last [": "] pair of
    that key, else the last ["="] pair. *)
Lemma extract_bag_info_lookup bag_id ps :
  eq_pairs (Str.split "," bag_id) = ok ps ->
  exists m, extract_bag_info bag_id = ok m /\
    forall k, dict_get m k
              = match last_binding (colon_pairs (Str.split "," bag_id)) k with
                | Some v => Some v
                | None => last_binding ps k
                end.
Proof.
  intros Hps. unfold extract_bag_info. cbv zeta.
  rewrite eq_pass_pairs, Hps. simpl. eexists. split; [reflexivity |].
  intros k. rewrite dict_get_update, colon_pass_pairs.
  rewrite last_binding_dict by (apply dict_update_NoDup; constructor).
  rewrite !dict_get_update. simpl.
  destruct (last_binding (colon_pairs (Str.split "," bag_id)) k);
    [reflexivity |].
  destruct (last_binding ps k); reflexivity.
Qed.

Lemma extract_bag_info_ok bag_id m :
  extract_bag_info bag_id = ok m ->
  exists ps, eq_pairs (Str.split "," bag_id) = ok ps.
Proof.
  unfold extract_bag_info. cbv zeta. rewrite eq_pass_pairs. intros H.
  apply bind_ok in H as (parts & H & _).
  apply bind_ok in H as (ps & H & _). eauto.
Qed.

Lemma pair_of_split_ok pieces k v :
  pair_of_split pieces = ok (k, v) <-> pieces = [k; v].
Proof.
  destruct pieces as [| a [| b [| c l]]]; simpl; unfold ok, raise;
    split; intros H; try discriminate H; congruence.
Qed.

Lemma pair_of_split_raise pieces e :
  pair_of_split pieces = raise e -> e = ValueError.
Proof.
  destruct pieces as [| a [| b [| c l]]]; simpl; unfold ok, raise;
    intros H; try discriminate H; congruence.
Qed.

Lemma mapM_raise {A B} (f : A -> result B) xs e :
  mapM f xs = raise e -> exists x, In x xs /\ f x = raise e.
Proof.
  induction xs as [| x xs IH]; simpl; [discriminate |].
  destruct (f x) as [e' | y] eqn:Hx; simpl.
  - intros H. exists x. split; [now left |].
    unfold raise in *. congruence.
  - destruct (mapM f xs) as [e' | ys]; simpl; [| discriminate].
    intros H. destruct (IH H) as (x' & Hin & Hx'). exists x'. auto.
Qed.

Lemma extract_bag_info_raise bag_id e :
  extract_bag_info bag_id = raise e -> e = ValueError.
Proof.
  unfold extract_bag_info. cbv zeta. rewrite eq_pass_pairs.
  destruct (eq_pairs (Str.split "," bag_id)) as [e' | ps] eqn:Hps; simpl.
  - intros H. unfold raise in H. injection H as ->.
    apply mapM_raise in Hps as (item & _ & Hitem).
    now apply pair_of_split_raise in Hitem.
  - discriminate.
Qed.

(** For a separator of one character, [s.count(sep)] counts the
    character. *)
Lemma split_go_single c cur s :
  List.length (Str.split_go (String c "") 0 cur s) = S (char_count c s).
Proof.
  revert cur. induction s as [| a s IH]; intros cur; [reflexivity |].
  cbn [Str.split_go char_count].
  destruct (prefix (String c "") (String a s)) eqn:Hp.
  - apply prefix_append in Hp as (r & Hr). injection Hr as -> _.
    rewrite Ascii.eqb_refl. cbn [String.length Nat.sub List.length].
    now rewrite IH.
  - destruct (Ascii.eqb_spec a c) as [-> | Hne].
    + assert (Ht : prefix (String c "") (String c s) = true)
        by (apply prefix_append; exists s; reflexivity).
      congruence.
    + rewrite IH. reflexivity.
Qed.

Lemma count_single_char c s : Str.count (String c "") s = char_count c s.
Proof.
  unfold Str.count, Str.split. rewrite split_go_single. simpl. lia.
Qed.

Lemma equals_count item : Str.count "=" item = char_count "=" item.
Proof. apply count_single_char. Qed.

(** A segment with ["="] gives a pair exactly when it has one ["="]. *)
Lemma pair_of_split_count item :
  (exists kv, pair_of_split (Str.split "=" item) = ok kv)
  <-> Str.count "=" item = 1.
Proof.
  unfold Str.count.
  destruct (Str.split "=" item) as [| a [| b [| c l]]]; simpl;
    split; intros H; try lia; try (destruct H as (kv & H); discriminate H).
  eexists. reflexivity.
Qed.

Lemma count_contains sep item :
  sep <> "" ->
  (Str.contains sep item = true <-> 1 <= Str.count sep item).
Proof.
  intros Hsep. unfold Str.count. split.
  - intros H. destruct (contains_true_split sep item Hsep H)
      as (a & b & more & ->). simpl. lia.
  - intros H. destruct (Str.contains sep item) eqn:Hc; [reflexivity |].
    rewrite (contains_false_split _ _ Hc) in H. simpl in H. lia.
Qed.

Lemma eq_pairs_total items :
  (exists ps, eq_pairs items = ok ps)
  <-> Forall (fun item => char_count "=" item <= 1) items.
Proof.
  assert (Hiff : Forall (fun item => char_count "=" item <= 1) items
                 <-> Forall (fun item => Str.count "=" item <= 1) items).
  { split; apply Forall_impl; intros item; now rewrite equals_count. }
  rewrite Hiff. clear Hiff.
  unfold eq_pairs. split.
  - intros (ps & H). apply mapM_ok_all in H.
    rewrite Forall_forall in *. intros item Hin.
    destruct (Str.contains "=" item) eqn:Hc.
    + assert (Hf : In item (filter (Str.contains "=") items))
        by (apply filter_In; auto).
      apply H, pair_of_split_count in Hf. lia.
    + destruct (Nat.le_gt_cases (Str.count "=" item) 0) as [Hle | Hgt];
        [lia |].
      apply (count_contains "=" item equals_nonempty) in Hgt. congruence.
  - intros H. apply mapM_total. rewrite Forall_forall in *.
    intros item Hin. apply filter_In in Hin as [Hin Hc].
    apply pair_of_split_count.
    apply (count_contains "=" item equals_nonempty) in Hc.
    specialize (H item Hin). lia.
Qed.

(** The shape of a segment behind a pair of the ["="] pass. *)
Lemma eq_pairs_shape items ps k v :
  eq_pairs items = ok ps -> In (k, v) ps ->
  exists item, In item items /\ item = (k ++ "=" ++ v)%string /\
               Str.contains "=" k = false /\ Str.contains "=" v = false.
Proof.
  unfold eq_pairs. intros H Hin.
  destruct (mapM_ok_In _ _ _ _ H Hin) as (item & Hitem & Hkv).
  apply filter_In in Hitem as [Hitem _].
  apply pair_of_split_ok in Hkv.
  exists item. split; [exact Hitem |].
  pose proof (join_split "=" item equals_nonempty) as Hj.
  pose proof (split_pieces "=" item equals_nonempty) as Hp.
  rewrite Hkv in Hj, Hp.
  pose proof (Forall_inv Hp) as Hk.
  pose proof (Forall_inv (Forall_inv_tail Hp)) as Hv.
  split; [symmetry; exact Hj | split; assumption].
Qed.

(** The shape of a segment behind a pair of the [": "] pass: the value stops
    at the second [": "]. *)
Lemma colon_pair_shape item :
  Str.contains ": " item = true ->
  exists more,
    item = Str.join ": " (fst (colon_pair item) :: snd (colon_pair item) :: more)
    /\ Str.contains ": " (fst (colon_pair item)) = false
    /\ Str.contains ": " (snd (colon_pair item)) = false.
Proof.
  intros Hc.
  destruct (contains_true_split ": " item colon_nonempty Hc)
    as (a & b & more & Hs).
  pose proof (join_split ": " item colon_nonempty) as Hj.
  pose proof (split_pieces ": " item colon_nonempty) as Hp.
  unfold colon_pair. rewrite Hs in *. cbn [nth fst snd].
  pose proof (Forall_inv Hp) as Ha.
  pose proof (Forall_inv (Forall_inv_tail Hp)) as Hb.
  exists more. split; [symmetry; exact Hj | split; assumption].
Qed.

Lemma mapM_ok_In_l {A B} (f : A -> result B) xs ys x :
  mapM f xs = ok ys -> In x xs -> exists y, In y ys /\ f x = ok y.
Proof.
  intros H. apply mapM_ok_Forall2 in H.
  induction H as [| x' y xs ys Hxy _ IH]; simpl; intros Hin.
  - contradiction.
  - destruct Hin as [-> | Hin].
    + exists y. auto.
    + destruct (IH Hin) as (y' & Hy' & Hf). exists y'. auto.
Qed.

Lemma extract_bag_info_key bag_id ps m k :
  eq_pairs (Str.split "," bag_id) = ok ps ->
  extract_bag_info bag_id = ok m ->
  (exists v, In (k, v) ps)
  \/ (exists v, In (k, v) (colon_pairs (Str.split "," bag_id))) ->
  In k (dict_keys m).
Proof.
  intros Hps Hm Hk.
  destruct (extract_bag_info_lookup _ _ Hps) as (m' & Hm' & Hget).
  assert (m' = m) as -> by (unfold ok in *; congruence).
  specialize (Hget k).
  destruct Hk as [(v & Hin) | (v & Hin)];
    apply In_last_binding in Hin as (w & Hw); rewrite Hw in Hget.
  - destruct (last_binding (colon_pairs (Str.split "," bag_id)) k);
      eapply dict_get_Some_keys, Hget.
  - eapply dict_get_Some_keys, Hget.
Qed.

(** Where a value of the returned mapping comes from. *)
Lemma extract_bag_info_origin bag_id m k v :
  extract_bag_info bag_id = ok m -> dict_get m k = Some v ->
  exists item, In item (Str.split "," bag_id) /\
    ((item = (k ++ "=" ++ v)%string /\
      Str.contains "=" k = false /\ Str.contains "=" v = false)
     \/ (exists more, item = Str.join ": " (k :: v :: more) /\
           Str.contains ": " k = false /\ Str.contains ": " v = false)).
Proof.
  intros Hm Hkv. destruct (extract_bag_info_ok _ _ Hm) as (ps & Hps).
  destruct (extract_bag_info_lookup _ _ Hps) as (m' & Hm' & Hget).
  assert (m' = m) as -> by (unfold ok in *; congruence).
  rewrite Hget in Hkv.
  destruct (last_binding (colon_pairs (Str.split "," bag_id)) k)
    as [w |] eqn:Hc.
  - injection Hkv as ->. apply last_binding_In in Hc.
    unfold colon_pairs in Hc. apply in_map_iff in Hc as (item & Hpair & Hin).
    apply filter_In in Hin as [Hin Hcontains].
    destruct (colon_pair_shape item Hcontains) as (more & Hitem & Hk & Hv).
    rewrite Hpair in Hitem, Hk, Hv. simpl in Hitem, Hk, Hv.
    exists item. split; [exact Hin |]. right. exists more. auto.
  - apply last_binding_In in Hkv.
    destruct (eq_pairs_shape _ _ _ _ Hps Hkv) as (item & Hin & Hshape).
    exists item. split; [exact Hin |]. left. exact Hshape.
Qed.

(** A parsed value is shorter than the text it was parsed from, by at least
    its key and a delimiter. *)
Lemma extract_bag_info_value_length bag_id m k v :
  extract_bag_info bag_id = ok m -> dict_get m k = Some v ->
  String.length k + String.length v < String.length bag_id.
Proof.
  intros Hm Hkv.
  destruct (extract_bag_info_origin _ _ _ _ Hm Hkv)
    as (item & Hin & [(Hitem & _) | (more & Hitem & _)]);
    apply (split_length_In "," bag_id item comma_nonempty) in Hin;
    rewrite Hitem in Hin.
  - rewrite !length_append in Hin. simpl in Hin. lia.
  - unfold Str.join in Hin. rewrite concat_cons in Hin by discriminate.
    rewrite !length_append in Hin.
    pose proof (join_length_In ": " (v :: more) v (or_introl eq_refl)) as Hv.
    unfold Str.join in Hv. change (String.length ": ") with 2 in Hin. lia.
Qed.

(** C4 (as amended): parsing ["k1=v1, Label: Value"] yields the mapping
    [{"k1": "v1", " Label": "Value"}].  The comma-separated segments are not
    trimmed, so the key of the second segment keeps the space that follows
    the comma, and no key ["Label"] exists. *)
Theorem extract_bag_info_keeps_whitespace :
  extract_bag_info "k1=v1, Label: Value"
  = ok [("k1", "v1"); (" Label", "Value")]
  /\ Str.split "," "k1=v1, Label: Value" = ["k1=v1"; " Label: Value"]
  /\ forall m, extract_bag_info "k1=v1, Label: Value" = ok m ->
       dict_get m "k1" = Some "v1" /\
       dict_get m " Label" = Some "Value" /\
       dict_get m "Label" = None.
Proof.
  split; [reflexivity | split; [reflexivity |]].
  intros m H. vm_compute in H. injection H as <-.
  repeat split; reflexivity.
Qed.

Lemma extract_bag_info_keeps_whitespace_witness :
  dict_get [("k1", "v1"); (" Label", "Value")] "Label" = None.
Proof.
  exact (proj2 (proj2 (proj2 (proj2 extract_bag_info_keeps_whitespace)
                         [("k1", "v1"); (" Label", "Value")] eq_refl))).
Defined.

(** C4 as stated fails: the returned mapping is not
    [{"k1": "v1", "Label": "Value"}]. *)
Lemma extract_bag_info_not_trimmed :
  ~ (exists m, extract_bag_info "k1=v1, Label: Value" = ok m /\
               forall k, dict_get m k
                         = dict_get [("k1", "v1"); ("Label", "Value")] k).
Proof.
  intros (m & H & Hget). vm_compute in H. injection H as <-.
  specialize (Hget "Label"). vm_compute in Hget. discriminate Hget.
Qed.

(** C5 (as amended): for every "BAG ID." string in which no comma-separated
    segment has more than one ["="], the parser returns a mapping without
    raising.  Every key of the mapping comes from a segment: either the
    segment is [key=value], cut at its only ["="], or it is
    [key: value] possibly followed by [": "] and more text, where the key
    ends at the first [": "] and the value at the second.  Every segment
    with a delimiter contributes the text before its first delimiter as a
    key; segments with neither delimiter contribute nothing. *)
Theorem extract_bag_info_segments (bag_id : string) :
  Forall (fun item => char_count "=" item <= 1) (Str.split "," bag_id) ->
  exists m, extract_bag_info bag_id = ok m /\
    (forall k v, dict_get m k = Some v ->
       exists item, In item (Str.split "," bag_id) /\
         ((item = (k ++ "=" ++ v)%string /\
           Str.contains "=" k = false /\ Str.contains "=" v = false)
          \/ (exists more, item = Str.join ": " (k :: v :: more) /\
                Str.contains ": " k = false /\
                Str.contains ": " v = false))) /\
    (forall item, In item (Str.split "," bag_id) ->
       (Str.contains "=" item = true ->
          exists k v, item = (k ++ "=" ++ v)%string /\
                      Str.contains "=" k = false /\ In k (dict_keys m)) /\
       (Str.contains ": " item = true ->
          exists k v more, item = Str.join ": " (k :: v :: more) /\
                           Str.contains ": " k = false /\
                           In k (dict_keys m))).
Proof.
  intros Hcount. apply eq_pairs_total in Hcount as (ps & Hps).
  destruct (extract_bag_info_lookup _ _ Hps) as (m & Hm & Hget).
  exists m. split; [exact Hm | split].
  - intros k v Hkv. exact (extract_bag_info_origin _ _ _ _ Hm Hkv).
  - intros item Hin. split; intros Hc.
    + assert (Hf : In item (filter (Str.contains "=") (Str.split "," bag_id)))
        by (apply filter_In; auto).
      unfold eq_pairs in Hps.
      destruct (mapM_ok_In_l _ _ _ _ Hps Hf) as ([k v] & Hkv & Hpair).
      fold (eq_pairs (Str.split "," bag_id)) in Hps.
      destruct (eq_pairs_shape _ _ _ _ Hps Hkv) as (item' & _ & _ & Hk & _).
      apply pair_of_split_ok in Hpair.
      pose proof (join_split "=" item equals_nonempty) as Hj.
      rewrite Hpair in Hj. exists k, v.
      split; [symmetry; exact Hj | split; [exact Hk |]].
      eapply extract_bag_info_key; eauto.
    + destruct (colon_pair_shape item Hc) as (more & Hitem & Hk & _).
      exists (fst (colon_pair item)), (snd (colon_pair item)), more.
      split; [exact Hitem | split; [exact Hk |]].
      eapply extract_bag_info_key; eauto. right.
      exists (snd (colon_pair item)). unfold colon_pairs.
      apply in_map_iff. exists item. split; [now destruct (colon_pair item) |].
      apply filter_In; auto.
Qed.

Lemma extract_bag_info_segments_witness :
  exists m, extract_bag_info "a=b,c: d: e,zz" = ok m /\
            dict_get m "a" = Some "b" /\ dict_get m "c" = Some "d".
Proof.
  destruct (extract_bag_info_segments "a=b,c: d: e,zz") as (m & Hm & _).
  - repeat constructor.
  - exists m. split; [exact Hm |].
    vm_compute in Hm. injection Hm as <-. split; reflexivity.
Defined.

(** C5 as stated fails: a segment with two ["="] makes the parser raise,
    and the value of a [": "] segment stops at the second [": "]. *)
Lemma extract_bag_info_raises_on_second_equals :
  extract_bag_info "a=b=c" = raise ValueError
  /\ extract_bag_info "a: b: c" = ok [("a", "b")].
Proof. split; reflexivity. Qed.

(** The parser raises exactly on a segment with more than one ["="], and
    then with [ValueError]. *)
Lemma extract_bag_info_raises_iff bag_id :
  extract_bag_info bag_id = raise ValueError
  <-> Exists (fun item => 2 <= char_count "=" item) (Str.split "," bag_id).
Proof.
  split.
  - intros H.
    destruct (Exists_dec (fun item => 2 <= char_count "=" item)
                (Str.split "," bag_id)
                (fun item => le_dec 2 (char_count "=" item)))
      as [Hex | Hnone]; [exact Hex |].
    apply Forall_Exists_neg in Hnone.
    assert (Hc : Forall (fun item => char_count "=" item <= 1)
                        (Str.split "," bag_id)).
    { eapply Forall_impl; [| exact Hnone]. simpl. intros; lia. }
    apply eq_pairs_total in Hc as (ps & Hps).
    destruct (extract_bag_info_lookup _ _ Hps) as (m & Hm & _).
    rewrite Hm in H. discriminate H.
  - intros Hex.
    destruct (extract_bag_info bag_id) as [e | m] eqn:Hm.
    + apply extract_bag_info_raise in Hm. now subst.
    + destruct (extract_bag_info_ok _ _ Hm) as (ps & Hps).
      assert (Hall : Forall (fun item => char_count "=" item <= 1)
                            (Str.split "," bag_id))
        by (apply eq_pairs_total; eauto).
      apply Exists_exists in Hex as (item & Hin & H2).
      rewrite Forall_forall in Hall. specialize (Hall item Hin). lia.
Qed.

(** C6: the [": "] pass runs after the ["="] pass and overwrites it.  When
    a key has a pair in both passes, the returned mapping holds the value of
    that key's (last) [": "] pair. *)
Theorem colon_pass_overwrites bag_id ps m k v1 v2 :
  eq_pairs (Str.split "," bag_id) = ok ps ->
  extract_bag_info bag_id = ok m ->
  In (k, v1) ps ->
  last_binding (colon_pairs (Str.split "," bag_id)) k = Some v2 ->
  dict_get m k = Some v2.
Proof.
  intros Hps Hm _ Hcolon.
  destruct (extract_bag_info_lookup _ _ Hps) as (m' & Hm' & Hget).
  assert (m' = m) as -> by (unfold ok in *; congruence).
  now rewrite Hget, Hcolon.
Qed.

Lemma colon_pass_overwrites_witness :
  extract_bag_info "k=1,k: 2" = ok [("k", "2")]
  /\ dict_get [("k", "2")] "k" = Some "2".
Proof.
  split; [reflexivity |].
  apply (colon_pass_overwrites "k=1,k: 2" [("k", "1")] [("k", "2")] "k" "1" "2").
  - reflexivity.
  - reflexivity.
  - simpl. left. reflexivity.
  - reflexivity.
Defined.

(** The last ["="] pair of a key wins; after a comma and a space the key
    is another key. *)
Example extract_bag_info_last_wins :
  extract_bag_info "k1=v1,k1=v2" = ok [("k1", "v2")]
  /\ extract_bag_info "k1=v1, k1=v2" = ok [("k1", "v1"); (" k1", "v2")].
Proof. split; reflexivity. Qed.

(** A segment with both delimiters feeds both passes. *)
Example extract_bag_info_both_delimiters :
  extract_bag_info "Bag: A=B" = ok [("Bag: A", "B"); ("Bag", "A=B")].
Proof. reflexivity. Qed.

(** ** Rows and frames *)

Lemma value_at_set (r : Series) l v l' :
  value_at (dict_set r l v) l' = if String.eqb l l' then v else value_at r l'.
Proof.
  unfold value_at. rewrite dict_get_set. now destruct (String.eqb l l').
Qed.

Lemma dict_get_app {V} (d1 d2 : dict V) k :
  dict_get (d1 ++ d2) k
  = match dict_get d1 k with
    | Some v => Some v
    | None => dict_get d2 k
    end.
Proof.
  induction d1 as [| [k1 v1] d1 IH]; simpl; [reflexivity |].
  destruct (String.eqb k1 k); [reflexivity | exact IH].
Qed.

Lemma dict_get_info_series parts k :
  dict_get (info_series (Some parts)) k = option_map VStr (dict_get parts k).
Proof.
  simpl. induction parts as [| [k1 v1] parts IH]; simpl; [reflexivity |].
  destruct (String.eqb k1 k); [reflexivity | exact IH].
Qed.

Lemma in_columns_In label cols : in_columns label cols = true <-> In label cols.
Proof.
  unfold in_columns. rewrite existsb_exists. split.
  - intros (x & Hin & Heq). apply String.eqb_eq in Heq. now subst.
  - intros Hin. exists label. split; [exact Hin | apply String.eqb_refl].
Qed.

Lemma in_columns_app label cols1 cols2 :
  in_columns label (cols1 ++ cols2)
  = in_columns label cols1 || in_columns label cols2.
Proof. unfold in_columns. apply existsb_app. Qed.

Lemma insert_by_perm {A} (leb : A -> A -> bool) x l :
  Permutation (insert_by leb x l) (x :: l).
Proof.
  induction l as [| y l IH]; simpl; [reflexivity |].
  destruct (leb x y); [reflexivity |].
  rewrite IH. apply perm_swap.
Qed.

Lemma sort_by_perm {A} (leb : A -> A -> bool) l :
  Permutation (sort_by leb l) l.
Proof.
  induction l as [| x l IH]; simpl; [reflexivity |].
  rewrite insert_by_perm. now constructor.
Qed.

Lemma sort_by_In {A} (leb : A -> A -> bool) l x :
  In x (sort_by leb l) <-> In x l.
Proof.
  split; apply Permutation_in;
    [apply sort_by_perm | symmetry; apply sort_by_perm].
Qed.

Lemma Forall2_combine_In {A B} (P : A -> B -> Prop) xs ys x y :
  Forall2 P xs ys -> In (x, y) (combine xs ys) -> P x y.
Proof.
  induction 1 as [| x' y' xs ys Hxy _ IH]; simpl; [contradiction |].
  intros [H | H]; [congruence | auto].
Qed.

Lemma Forall2_In_l {A B} (P : A -> B -> Prop) xs ys x :
  Forall2 P xs ys -> In x xs -> exists y, In (x, y) (combine xs ys) /\ P x y.
Proof.
  induction 1 as [| x' y' xs ys Hxy _ IH]; simpl; [contradiction |].
  intros [-> | H].
  - exists y'. auto.
  - destruct (IH H) as (y & Hin & Hy). exists y. auto.
Qed.

(** The rows of [df[label] = values] when [values] was computed from the
    rows of [df], one value a row. *)
Lemma setitem_rows (f : Series -> cell -> Prop) cols rs label values :
  Forall2 f rs values ->
  rows (setitem (mkDataFrame cols rs) label values)
  = map (fun rv => dict_set (fst rv) label (snd rv)) (combine rs values).
Proof.
  intros H. unfold setitem. cbn [rows columns].
  assert (Hgen : forall xs vs, List.length xs = List.length vs ->
            set_rows label xs vs
            = map (fun rv => dict_set (fst rv) label (snd rv)) (combine xs vs)).
  { induction xs as [| x xs IH]; intros [| v vs] Hlen; simpl in *;
      try reflexivity; try discriminate. f_equal. apply IH. lia. }
  destruct H as [| r v rs values Hrv Hrest]; [reflexivity |].
  apply Hgen. simpl. f_equal. eapply Forall2_length, Hrest.
Qed.

(** ** Lines 39-48: the combined frame *)

Lemma parse_cell_ok c info :
  parse_cell c = ok info ->
  (isna c = true /\ info = None)
  \/ (exists s parts, c = VStr s /\ extract_bag_info s = ok parts /\
                      info = Some parts).
Proof.
  destruct c as [k | s | t | repr]; simpl; unfold ok, raise; intros H;
    try discriminate H.
  - left. split; [reflexivity | congruence].
  - right. destruct (extract_bag_info s) as [e | parts] eqn:He; simpl in H;
      [discriminate H |].
    exists s, parts. split; [reflexivity | split; [exact He |]].
    unfold ok in H. congruence.
Qed.

Lemma joined_bag_id row info :
  parsed_fields row = ok info ->
  value_at (row ++ info_series info) bag_id_column
  = value_at row bag_id_column.
Proof.
  unfold parsed_fields, value_at. intros H. rewrite dict_get_app.
  destruct (dict_get row bag_id_column) as [v |]; [reflexivity |].
  apply parse_cell_ok in H as [(_ & ->) | (s & parts & Hs & _)];
    [reflexivity | discriminate Hs].
Qed.

Lemma joined_bag row info :
  ~ In "Bag" (dict_keys row) ->
  value_at (row ++ info_series info) "Bag" = bag_field info.
Proof.
  intros Hn. apply dict_get_None in Hn. unfold value_at.
  rewrite dict_get_app, Hn. destruct info as [parts |]; [| reflexivity].
  rewrite dict_get_info_series. unfold bag_field.
  destruct (dict_get parts "Bag"); reflexivity.
Qed.

Lemma bag_scanned_manual_ok ts cols row v :
  bag_scanned_manual ts cols row = ok v ->
  in_columns bag_id_column cols = true /\
  v = (if Nat.ltb 20 (String.length (py_str ts (value_at row bag_id_column)))
       then value_at row "Bag" else value_at row bag_id_column).
Proof.
  unfold bag_scanned_manual, getitem.
  destruct (in_columns bag_id_column cols); simpl; [| discriminate].
  destruct (Nat.ltb 20 _); [destruct (in_columns "Bag" cols) |];
    unfold ok, raise; intros H; try discriminate H; split; congruence.
Qed.

(** Every row of [combined_df] is a row of the sheet, joined with its parsed
    fields and given its "Bag Scanned & Manual" value. *)
Lemma combined_df_rows ts df cdf :
  combined_df ts df = ok cdf ->
  exists infos,
    mapM parsed_fields (rows df) = ok infos /\
    forall r, In r (rows cdf) ->
      exists row info v,
        In row (rows df) /\ parsed_fields row = ok info /\
        bag_scanned_manual ts (columns df ++ info_columns infos)
                           (row ++ info_series info) = ok v /\
        r = dict_set (row ++ info_series info) scanned_column v.
Proof.
  unfold combined_df. intros H.
  apply bind_ok in H as (infos & Hinfos & H).
  apply bind_ok in H as (scanned & Hsc & H).
  unfold ok in H. injection H as <-.
  exists infos. split; [exact Hinfos |]. intros r Hr.
  unfold sort_values_desc in Hr. cbn [rows] in Hr.
  apply sort_by_In in Hr.
  apply mapM_ok_Forall2 in Hsc, Hinfos.
  unfold concat_info in Hr, Hsc. cbn [rows columns] in Hsc.
  rewrite (setitem_rows _ _ _ _ _ Hsc) in Hr.
  apply in_map_iff in Hr as ([r0 v] & <- & Hin). cbn [fst snd].
  pose proof (Forall2_combine_In _ _ _ _ _ Hsc Hin) as Hv.
  apply in_combine_l, in_map_iff in Hin as ([row info] & <- & Hin).
  cbn [fst snd] in *.
  pose proof (Forall2_combine_In _ _ _ _ _ Hinfos Hin) as Hinfo.
  exists row, info, v. repeat split; try assumption.
  eapply in_combine_l, Hin.
Qed.

Lemma scanned_column_not_bag_id : String.eqb scanned_column bag_id_column = false.
Proof. reflexivity. Qed.

(** The rule of lines 45-48 on a row of [combined_df], for a sheet that has
    no column "Bag" of its own. *)
Lemma enriched_row_rule ts df cdf r :
  combined_df ts df = ok cdf ->
  well_formed df ->
  in_columns "Bag" (columns df) = false ->
  In r (rows cdf) ->
  exists parsed,
    parsed_fields r = ok parsed /\
    ScannedId r
    = (if Nat.ltb 20 (String.length (py_str ts (BagId r)))
       then bag_field parsed else BagId r).
Proof.
  intros Hc Hwf Hbag Hr.
  destruct (combined_df_rows _ _ _ Hc) as (infos & _ & Hrows).
  destruct (Hrows r Hr) as (row & info & v & Hrow & Hinfo & Hv & ->).
  apply bag_scanned_manual_ok in Hv as [_ Hv].
  assert (Hnb : ~ In "Bag" (dict_keys row)).
  { intros Hin. unfold well_formed in Hwf. rewrite Forall_forall in Hwf.
    apply (Hwf row Hrow), in_columns_In in Hin. congruence. }
  rewrite (joined_bag_id _ _ Hinfo), (joined_bag _ info Hnb) in Hv.
  assert (Hid : BagId (dict_set (row ++ info_series info) scanned_column v)
                = value_at row bag_id_column).
  { unfold BagId. rewrite value_at_set, scanned_column_not_bag_id.
    apply joined_bag_id, Hinfo. }
  exists info. split.
  - unfold parsed_fields. fold (BagId (dict_set (row ++ info_series info)
                                          scanned_column v)).
    rewrite Hid. exact Hinfo.
  - rewrite Hid. unfold ScannedId. rewrite value_at_set, String.eqb_refl.
    exact Hv.
Qed.









Lemma concat_info_rows df infos r :
  Forall2 (fun row info => parsed_fields row = ok info) (rows df) infos ->
  In r (rows (concat_info df infos)) ->
  exists row info, In row (rows df) /\ parsed_fields row = ok info /\
                   r = row ++ info_series info.
Proof.
  intros HF Hin. unfold concat_info in Hin. cbn [rows] in Hin.
  apply in_map_iff in Hin as ([row info] & <- & Hin).
  exists row, info. split; [eapply in_combine_l, Hin | split; [| reflexivity]].
  exact (Forall2_combine_In _ _ _ _ _ HF Hin).
Qed.







(** ** Lines 73-95: the two row filters *)

Lemma mask_rows_filter (f : Series -> bool) rs :
  mask_rows (map f rs) rs = filter f rs.
Proof.
  induction rs as [| r rs IH]; simpl; [reflexivity |].
  rewrite IH. reflexivity.
Qed.

Lemma column_ok df label :
  in_columns label (columns df) = true ->
  column df label = ok (map (fun row => value_at row label) (rows df)).
Proof. intros H. unfold column. now rewrite H. Qed.










(** A sheet whose "BAG ID." cells are all empty passes lines 39-48 and ends
    at line 74, in the handler of line 133. *)
Example run_without_any_bag_id :
  (exists cdf, combined_df sample_str sheet_empty_ids = ok cdf)
  /\ run sample_str sheet_empty_ids 0 10 = Failed AttributeError.
Proof. split; [eexists |]; reflexivity. Qed.

(** Every "BAG ID." of the combined frame is a text or missing. *)
Lemma combined_df_bag_ids ts df cdf r :
  combined_df ts df = ok cdf -> In r (rows cdf) -> text_or_missing (BagId r).
Proof.
  intros Hc Hr.
  destruct (combined_df_rows _ _ _ Hc) as (infos & _ & Hrows).
  destruct (Hrows r Hr) as (row & info & v & _ & Hinfo & _ & ->).
  unfold BagId. rewrite value_at_set, scanned_column_not_bag_id.
  rewrite (joined_bag_id _ _ Hinfo).
  unfold parsed_fields in Hinfo.
  apply parse_cell_ok in Hinfo as [(Hna & _) | (s & parts & Hs & _)].
  - now left.
  - right. eauto.
Qed.

(** ** Lines 59-68: the duplicates table *)

Lemma cell_eqb_eq a b : cell_eqb a b = true <-> a = b.
Proof.
  destruct a as [[| |] | s1 | t1 | r1], b as [[| |] | s2 | t2 | r2]; simpl;
    try (split; [discriminate | congruence]);
    try (split; reflexivity).
  - rewrite String.eqb_eq. split; congruence.
  - rewrite Z.eqb_eq. split; congruence.
  - rewrite String.eqb_eq. split; congruence.
Qed.

Lemma cell_eqb_refl a : cell_eqb a a = true.
Proof. now apply cell_eqb_eq. Qed.

Lemma unique_In vals v : In v (unique vals) <-> In v vals.
Proof.
  induction vals as [| x vals IH]; simpl; [tauto |].
  rewrite filter_In, IH. split.
  - intros [-> | [H _]]; auto.
  - intros [-> | H]; [now left |].
    destruct (cell_eqb x v) eqn:Hx.
    + apply cell_eqb_eq in Hx. now left.
    + right. auto.
Qed.

Lemma unique_NoDup vals : NoDup (unique vals).
Proof.
  induction vals as [| x vals IH]; simpl; constructor.
  - rewrite filter_In, cell_eqb_refl. intros [_ H]. discriminate H.
  - apply NoDup_filter, IH.
Qed.

Lemma occurrences_In v vals : 1 <= occurrences v vals -> In v vals.
Proof.
  unfold occurrences. intros H.
  destruct (filter (cell_eqb v) vals) as [| w l] eqn:Hf; [simpl in H; lia |].
  assert (Hw : In w (filter (cell_eqb v) vals)) by (rewrite Hf; now left).
  apply filter_In in Hw as [Hw Heq]. apply cell_eqb_eq in Heq. now subst.
Qed.

Lemma duplicates_df_eq cdf :
  in_columns scanned_column (columns cdf) = true ->
  duplicates_df cdf
  = ok (mkDataFrame (columns cdf)
          (filter (fun r => Nat.leb 2 (occurrences (ScannedId r)
                                         (map ScannedId (rows cdf))))
                  (rows cdf))).
Proof.
  intros Hcol. unfold duplicates_df. rewrite (column_ok _ _ Hcol). simpl.
  unfold duplicated. rewrite map_map. do 2 apply f_equal.
  exact (mask_rows_filter
           (fun r => Nat.leb 2 (occurrences (ScannedId r)
                                  (map ScannedId (rows cdf))))
           (rows cdf)).
Qed.

Lemma group_keys_NoDup vals : NoDup (group_keys vals).
Proof.
  unfold group_keys. eapply Permutation_NoDup; [| apply unique_NoDup].
  symmetry. apply sort_by_perm.
Qed.

Lemma group_keys_In vals key :
  In key (group_keys vals) <-> isna key = false /\ In key vals.
Proof.
  unfold group_keys, dropna.
  rewrite sort_by_In, unique_In, filter_In, negb_true_iff. tauto.
Qed.

Lemma get_group_head label key rs :
  In key (map (fun r => value_at r label) rs) ->
  hd (VNull NaN) (map (fun r => value_at r label) (get_group label key rs))
  = key.
Proof.
  unfold get_group. induction rs as [| r rs IH]; simpl; [contradiction |].
  destruct (cell_eqb (value_at r label) key) eqn:Hr.
  - intros _. simpl. now apply cell_eqb_eq.
  - intros [H | H]; [| exact (IH H)].
    rewrite H, cell_eqb_refl in Hr. discriminate Hr.
Qed.

Lemma summarize_key ts cols group s :
  summarize ts cols group = ok s ->
  ScannedId s = hd (VNull NaN) (map (fun r => value_at r scanned_column) group).
Proof.
  unfold summarize. cbv zeta. intros H.
  apply bind_ok in H as (times & _ & H).
  apply bind_ok in H as (ids & Hids & H).
  apply bind_ok in H as (seals & _ & H).
  apply bind_ok in H as (seal & _ & H).
  apply bind_ok in H as (lot & _ & H).
  apply bind_ok in H as (lots & _ & H).
  unfold ok in H. injection H as <-.
  unfold column in Hids. cbn [columns rows] in Hids.
  destruct (in_columns scanned_column cols); [| discriminate Hids].
  unfold ok in Hids. injection Hids as <-. reflexivity.
Qed.

Lemma Forall2_map_eq {A B} (f : B -> A) ks ss :
  Forall2 (fun k s => f s = k) ks ss -> map f ss = ks.
Proof. induction 1; simpl; congruence. Qed.

(** The keys of the summary rows are the group keys, in their order. *)
Lemma grouped_duplicates_keys ts cdf view :
  grouped_duplicates ts cdf = ok view ->
  exists dups,
    duplicates_df cdf = ok dups /\
    map ScannedId view = group_keys (map ScannedId (rows dups)).
Proof.
  unfold grouped_duplicates. intros H.
  apply bind_ok in H as (dups & Hdups & H).
  apply bind_ok in H as (keys & Hkeys & H).
  exists dups. split; [exact Hdups |].
  unfold column in Hkeys.
  destruct (in_columns scanned_column (columns dups)); [| discriminate Hkeys].
  unfold ok in Hkeys. injection Hkeys as <-.
  apply Forall2_map_eq.
  apply mapM_ok_Forall2 in H.
  assert (Hall : Forall (fun key => In key (map ScannedId (rows dups)))
                        (group_keys (map ScannedId (rows dups)))).
  { apply Forall_forall. intros key Hk. now apply group_keys_In in Hk. }
  fold ScannedId in H.
  change (map (fun row => value_at row scanned_column) (rows dups))
    with (map ScannedId (rows dups)) in H.
  induction H as [| key s keys view Hs _ IH]; constructor.
  - apply summarize_key in Hs. rewrite Hs.
    apply get_group_head. exact (Forall_inv Hall).
  - apply IH. exact (Forall_inv_tail Hall).
Qed.

(** C7 (as amended): whenever the duplicates table is built, it has one
    summary row for each non-null "Bag Scanned & Manual" value that occurs
    on at least two rows, and no other row: a value that occurs once gives
    none, and neither does the missing value, however many rows carry it
    ([groupby] drops it). *)
Theorem duplicate_view_groups ts cdf view :
  grouped_duplicates ts cdf = ok view ->
  NoDup (map ScannedId view) /\
  forall key,
    In key (map ScannedId view)
    <-> isna key = false /\
        2 <= occurrences key (map ScannedId (rows cdf)).
Proof.
  intros H.
  destruct (grouped_duplicates_keys _ _ _ H) as (dups & Hdups & Hkeys).
  rewrite Hkeys. split; [apply group_keys_NoDup |].
  intros key. rewrite group_keys_In.
  destruct (in_columns scanned_column (columns cdf)) eqn:Hc.
  2: { unfold duplicates_df, column in Hdups. rewrite Hc in Hdups.
       discriminate Hdups. }
  rewrite (duplicates_df_eq cdf Hc) in Hdups.
  unfold ok in Hdups. injection Hdups as <-.
  cbn [rows]. rewrite in_map_iff.
  split.
  - intros (Hna & r & Hr & Hin). split; [exact Hna |].
    apply filter_In in Hin as [_ Hocc].
    apply (proj1 (Nat.leb_le 2 _)) in Hocc. now rewrite Hr in Hocc.
  - intros (Hna & Hocc). split; [exact Hna |].
    assert (Hin : In key (map ScannedId (rows cdf)))
      by (apply occurrences_In; lia).
    apply in_map_iff in Hin as (r & Hr & Hin).
    exists r. split; [exact Hr |]. apply filter_In. split; [exact Hin |].
    apply (proj2 (Nat.leb_le 2 _)). now rewrite Hr.
Qed.

Lemma duplicate_view_groups_witness :
  exists cdf view,
    combined_df sample_str sheet_mixed = ok cdf /\
    grouped_duplicates sample_str cdf = ok view /\
    map ScannedId view = [VStr "B1"] /\ NoDup (map ScannedId view).
Proof.
  destruct (combined_df sample_str sheet_mixed) as [e | cdf] eqn:Hc;
    [discriminate Hc |].
  destruct (grouped_duplicates sample_str cdf) as [e | view] eqn:Hv.
  - vm_compute in Hc. injection Hc as <-. discriminate Hv.
  - exists cdf, view. split; [reflexivity | split; [exact Hv | split]].
    + vm_compute in Hc. injection Hc as <-.
      vm_compute in Hv. injection Hv as <-. reflexivity.
    + exact (proj1 (duplicate_view_groups sample_str cdf view Hv)).
Defined.

(** C7 as stated fails: two rows share the missing
    "Bag Scanned & Manual" and the table has no row for them. *)
Lemma null_group_is_dropped :
  exists cdf,
    combined_df sample_str sheet_nulls = ok cdf /\
    occurrences (VNull NaN) (map ScannedId (rows cdf)) = 2 /\
    grouped_duplicates sample_str cdf = ok [].
Proof.
  destruct (combined_df sample_str sheet_nulls) as [e | cdf] eqn:Hc;
    [discriminate Hc |].
  exists cdf. vm_compute in Hc. injection Hc as <-.
  split; [reflexivity | split; reflexivity].
Qed.



(** Without a parsed "Seal" the lambda raises on the first group: a sheet of
    manual codes "A", "A", "B" ends in the handler of line 133. *)
Example duplicates_without_seal_column :
  run sample_str sheet_codes 0 10 = Failed (KeyError "Seal").
Proof. reflexivity. Qed.

(** ** Lines 98-117: the export *)

Lemma set_rows_length label rs values :
  List.length rs = List.length values ->
  List.length (set_rows label rs values) = List.length values.
Proof.
  revert values. induction rs as [| r rs IH]; intros [| v values] H;
    simpl in *; try reflexivity; try discriminate. f_equal. apply IH. lia.
Qed.

Lemma set_rows_values label rs values :
  List.length rs = List.length values ->
  map (fun r => value_at r label) (set_rows label rs values) = values.
Proof.
  revert values. induction rs as [| r rs IH]; intros [| v values] H;
    simpl in *; try reflexivity; try discriminate.
  rewrite value_at_set, String.eqb_refl. f_equal. apply IH. lia.
Qed.

Lemma setitem_rows_sized df label values :
  List.length (rows df) = List.length values ->
  rows (setitem df label values) = set_rows label (rows df) values.
Proof.
  unfold setitem. cbn [rows]. destruct (rows df) as [| r rs]; [| reflexivity].
  destruct values; [reflexivity | discriminate].
Qed.

Lemma setitem_empty_length df label values :
  rows df = [] ->
  List.length (rows (setitem df label values)) = List.length values.
Proof.
  intros H. unfold setitem. cbn [rows]. rewrite H.
  apply set_rows_length. now rewrite length_map.
Qed.

Lemma setitem_length df label values :
  List.length (rows df) = List.length values ->
  List.length (rows (setitem df label values)) = List.length values.
Proof.
  intros H. rewrite setitem_rows_sized by exact H. now apply set_rows_length.
Qed.

Lemma setitem_values df label values :
  List.length (rows df) = List.length values ->
  column_values (setitem df label values) label = values.
Proof.
  intros H. unfold column_values. rewrite setitem_rows_sized by exact H.
  now apply set_rows_values.
Qed.

Lemma setitem_scalar_values df label v :
  column_values (setitem_scalar df label v) label
  = map (fun _ => v) (rows df).
Proof.
  unfold column_values, setitem_scalar. cbn [rows]. rewrite map_map.
  apply map_ext. intros r. now rewrite value_at_set, String.eqb_refl.
Qed.

(** A turn of the loop that does not create the time column leaves the
    inner loop without effect. *)
Lemma mapping_step_plain ts source mapped original_col new_col :
  in_columns "BAG_AHK_LP_SAMPLING_TS" (add_column (columns mapped) new_col)
  = false ->
  mapping_step ts source mapped (original_col, new_col)
  = if in_columns original_col (columns source)
    then setitem mapped new_col (column_values source original_col)
    else setitem_scalar mapped new_col (VNull PyNone).
Proof.
  intros H. unfold mapping_step, append_offsets. cbn [fold_left].
  destruct (in_columns original_col (columns source));
    cbn [columns setitem setitem_scalar]; rewrite H; reflexivity.
Qed.

Lemma mapping_step_length ts source mapped original_col new_col :
  in_columns "BAG_AHK_LP_SAMPLING_TS" (add_column (columns mapped) new_col)
  = false ->
  List.length (rows mapped) = List.length (rows source) ->
  List.length (rows (mapping_step ts source mapped (original_col, new_col)))
  = List.length (rows source)
  /\ columns (mapping_step ts source mapped (original_col, new_col))
     = add_column (columns mapped) new_col.
Proof.
  intros H Hlen. rewrite mapping_step_plain by exact H.
  destruct (in_columns original_col (columns source)).
  - split; [| reflexivity]. rewrite setitem_length.
    + unfold column_values. apply length_map.
    + unfold column_values. now rewrite length_map.
  - split; [| reflexivity]. unfold setitem_scalar. cbn [rows].
    now rewrite length_map.
Qed.

(** C1: in the exported frame every value of "BAG_AHK_LP_SAMPLING_TS" is
    the text of the row's "SAMPLING TIME" followed by one ["+02:00"]; the
    text is that of the missing value when the cell is empty, and ["None"]
    when the frame has no "SAMPLING TIME" column.  The offset is appended
    once although lines 115-117 run on each turn of the loop, because the
    time column is created on the last turn. *)
Theorem export_sampling_offset ts source :
  in_columns scanned_column (columns source) = true ->
  columns (mapped_df_for_download ts source)
  = ["name"; "PRN_AHK_SEAL"; "PRN_WH_GROSS_WEIGHT"; "BAG_AHK_LP_SAMPLING_TS"]
  /\ column_values (mapped_df_for_download ts source) "BAG_AHK_LP_SAMPLING_TS"
     = map (fun row =>
              VStr (py_str ts (sampling_time source row) ++ "+02:00"))
           (rows source).
Proof.
  intros Hname. unfold mapped_df_for_download, column_mappings.
  cbn [fold_left].
  (* first turn: "name", on the empty frame *)
  assert (H1 : mapping_step ts source (mkDataFrame [] [])
                 ("Bag Scanned & Manual", "name")
               = setitem (mkDataFrame [] []) "name"
                   (column_values source "Bag Scanned & Manual")).
  { rewrite mapping_step_plain by reflexivity.
    unfold scanned_column in Hname. now rewrite Hname. }
  rewrite H1. clear H1.
  set (m1 := setitem (mkDataFrame [] []) "name"
               (column_values source "Bag Scanned & Manual")).
  assert (L1 : List.length (rows m1) = List.length (rows source)).
  { unfold m1. rewrite setitem_empty_length by reflexivity.
    unfold column_values. apply length_map. }
  assert (C1 : columns m1 = ["name"]) by reflexivity.
  (* second and third turns *)
  destruct (mapping_step_length ts source m1 "AHK SEAL NO." "PRN_AHK_SEAL")
    as [L2 C2]; [rewrite C1; reflexivity | exact L1 |].
  set (m2 := mapping_step ts source m1 ("AHK SEAL NO.", "PRN_AHK_SEAL")) in *.
  rewrite C1 in C2. change (columns m2 = ["name"; "PRN_AHK_SEAL"]) in C2.
  destruct (mapping_step_length ts source m2
              "WAREHOUSE PLATFORM SCALE GROSS WEIGHT (KG)"
              "PRN_WH_GROSS_WEIGHT")
    as [L3 C3]; [rewrite C2; reflexivity | exact L2 |].
  set (m3 := mapping_step ts source m2
               ("WAREHOUSE PLATFORM SCALE GROSS WEIGHT (KG)",
                "PRN_WH_GROSS_WEIGHT")) in *.
  rewrite C2 in C3.
  change (columns m3 = ["name"; "PRN_AHK_SEAL"; "PRN_WH_GROSS_WEIGHT"]) in C3.
  (* last turn: the time column and its offset *)
  unfold mapping_step, append_offsets. cbn [fold_left].
  set (m4 := if in_columns "SAMPLING TIME" (columns source)
             then setitem m3 "BAG_AHK_LP_SAMPLING_TS"
                    (column_values source "SAMPLING TIME")
             else setitem_scalar m3 "BAG_AHK_LP_SAMPLING_TS" (VNull PyNone)).
  assert (C4 : columns m4
               = ["name"; "PRN_AHK_SEAL"; "PRN_WH_GROSS_WEIGHT";
                  "BAG_AHK_LP_SAMPLING_TS"]).
  { unfold m4. destruct (in_columns "SAMPLING TIME" (columns source));
      cbn [columns setitem setitem_scalar]; rewrite C3; reflexivity. }
  assert (L4 : List.length (rows m4) = List.length (rows source)).
  { unfold m4. destruct (in_columns "SAMPLING TIME" (columns source)).
    - rewrite setitem_length; unfold column_values; now rewrite length_map.
    - unfold setitem_scalar. cbn [rows]. now rewrite length_map. }
  assert (V4 : column_values m4 "BAG_AHK_LP_SAMPLING_TS"
               = map (sampling_time source) (rows source)).
  { unfold m4, sampling_time.
    destruct (in_columns "SAMPLING TIME" (columns source)).
    - rewrite setitem_values; [reflexivity |].
      unfold column_values. now rewrite length_map.
    - rewrite setitem_scalar_values. clear - L3.
      revert L3. generalize (rows m3), (rows source).
      induction l as [| x xs IH]; intros [| y ys] Hl; simpl in *;
        try reflexivity; try discriminate. f_equal. apply IH. lia. }
  rewrite C4.
  change (in_columns "BAG_AHK_LP_SAMPLING_TS"
            ["name"; "PRN_AHK_SEAL"; "PRN_WH_GROSS_WEIGHT";
             "BAG_AHK_LP_SAMPLING_TS"]) with true.
  cbv iota. split.
  - unfold setitem. cbn [columns]. rewrite C4. reflexivity.
  - rewrite setitem_values by (rewrite length_map; unfold column_values;
                               now rewrite length_map).
    rewrite V4, map_map. reflexivity.
Qed.

Lemma export_sampling_offset_witness :
  column_values
    (mapped_df_for_download sample_str
       (mkDataFrame (sheet_columns ++ ["Bag Scanned & Manual"])
          [sheet_row (VTime 1) (VStr "B1")
           ++ [("Bag Scanned & Manual", VStr "B1")]]))
    "BAG_AHK_LP_SAMPLING_TS"
  = [VStr "None+02:00"].
Proof.
  exact (proj2 (export_sampling_offset sample_str
                  (mkDataFrame (sheet_columns ++ ["Bag Scanned & Manual"])
                     [sheet_row (VTime 1) (VStr "B1")
                      ++ [("Bag Scanned & Manual", VStr "B1")]])
                  eq_refl)).
Defined.

(** * Further properties of the parser *)

Lemma contains_substring sub p a b :
  Str.contains sub p = true -> Str.contains sub (a ++ p ++ b) = true.
Proof.
  intros H. apply contains_append in H as (x & y & ->).
  apply contains_append. exists (a ++ x)%string, (y ++ b)%string.
  now rewrite !append_assoc.
Qed.

Lemma join_In_substring sep l p :
  In p l -> exists a b, Str.join sep l = (a ++ p ++ b)%string.
Proof.
  unfold Str.join. induction l as [| x l IH]; intros Hin; [contradiction |].
  destruct l as [| y l].
  - destruct Hin as [-> | []]. exists "", "". simpl.
    now rewrite append_empty_r.
  - rewrite concat_cons by discriminate. destruct Hin as [-> | Hin].
    + exists "", (sep ++ String.concat sep (y :: l))%string. reflexivity.
    + destruct (IH Hin) as (a & b & ->).
      exists (x ++ sep ++ a)%string, b. now rewrite !append_assoc.
Qed.

Lemma split_piece_substring sep s p :
  sep <> "" -> In p (Str.split sep s) ->
  exists a b, s = (a ++ p ++ b)%string.
Proof.
  intros Hsep Hin. destruct (join_In_substring sep _ _ Hin) as (a & b & H).
  rewrite join_split in H by exact Hsep. eauto.
Qed.

Lemma split_piece_contains sub sep s p :
  sep <> "" -> In p (Str.split sep s) ->
  Str.contains sub s = false -> Str.contains sub p = false.
Proof.
  intros Hsep Hin Hs. destruct (Str.contains sub p) eqn:Hp; [| reflexivity].
  destruct (split_piece_substring _ _ _ Hsep Hin) as (a & b & ->).
  rewrite (contains_substring _ _ a b Hp) in Hs. discriminate Hs.
Qed.

Lemma filter_none {A} (f : A -> bool) l :
  (forall x, In x l -> f x = false) -> filter f l = [].
Proof.
  induction l as [| x l IH]; intros H; simpl; [reflexivity |].
  rewrite (H x) by now left. apply IH. intros y Hy. apply H. now right.
Qed.

(** X1: a "BAG ID." text without ["="] and without [": "], such as a manual
    code or the empty text, parses to the empty mapping. *)
Theorem extract_bag_info_plain bag_id :
  Str.contains "=" bag_id = false ->
  Str.contains ": " bag_id = false ->
  extract_bag_info bag_id = ok [].
Proof.
  intros He Hc. unfold extract_bag_info, eq_pass, colon_pass. cbv zeta.
  rewrite !filter_none; [reflexivity | |];
    intros item Hin;
    eapply split_piece_contains; eauto using comma_nonempty.
Qed.

Lemma extract_bag_info_plain_witness :
  extract_bag_info "B1" = ok [] /\ extract_bag_info "" = ok [].
Proof.
  split; apply extract_bag_info_plain; reflexivity.
Defined.

(** X2: the parser raises exactly when a comma-separated segment holds two
    or more ["="], and then with [ValueError]; it raises nothing else. *)
Theorem extract_bag_info_errors bag_id :
  (extract_bag_info bag_id = raise ValueError
   <-> Exists (fun item => 2 <= char_count "=" item) (Str.split "," bag_id))
  /\ (forall e, extract_bag_info bag_id = raise e -> e = ValueError)
  /\ ((exists m, extract_bag_info bag_id = ok m)
      <-> Forall (fun item => char_count "=" item <= 1)
                 (Str.split "," bag_id)).
Proof.
  split; [apply extract_bag_info_raises_iff | split].
  - apply extract_bag_info_raise.
  - split.
    + intros (m & Hm). apply eq_pairs_total. eapply extract_bag_info_ok, Hm.
    + intros H. apply eq_pairs_total in H as (ps & Hps).
      destruct (extract_bag_info_lookup _ _ Hps) as (m & Hm & _). eauto.
Qed.

Lemma extract_bag_info_errors_witness :
  extract_bag_info "Bag=B1,Lot=a=b" = raise ValueError.
Proof.
  apply (proj1 (extract_bag_info_errors "Bag=B1,Lot=a=b")).
  apply Exists_cons_tl, Exists_cons_hd. simpl. lia.
Defined.

(** X3: the returned mapping has no key twice; under each key it holds the
    value of the key's last [": "] pair if there is one, else of its last
    ["="] pair, and it has a key exactly when some pair has it. *)
Theorem extract_bag_info_mapping bag_id m :
  extract_bag_info bag_id = ok m ->
  NoDup (dict_keys m) /\
  exists ps,
    eq_pairs (Str.split "," bag_id) = ok ps /\
    (forall k,
       dict_get m k
       = match last_binding (colon_pairs (Str.split "," bag_id)) k with
         | Some v => Some v
         | None => last_binding ps k
         end) /\
    (forall k,
       In k (dict_keys m)
       <-> In k (map fst ps)
           \/ In k (map fst (colon_pairs (Str.split "," bag_id)))).
Proof.
  intros Hm. split.
  - unfold extract_bag_info, eq_pass in Hm. cbv zeta in Hm.
    apply bind_ok in Hm as (parts & Hparts & Hm).
    apply bind_ok in Hparts as (ps & _ & Hparts).
    unfold ok in Hm, Hparts. injection Hm as <-. injection Hparts as <-.
    apply dict_update_NoDup, dict_update_NoDup. constructor.
  - destruct (extract_bag_info_ok _ _ Hm) as (ps & Hps).
    destruct (extract_bag_info_lookup _ _ Hps) as (m' & Hm' & Hget).
    assert (m' = m) as -> by (unfold ok in *; congruence).
    exists ps. split; [exact Hps | split; [exact Hget |]].
    intros k. split.
    + intros Hin.
      destruct (dict_get m k) as [v |] eqn:Hk.
      * rewrite Hget in Hk.
        destruct (last_binding (colon_pairs (Str.split "," bag_id)) k)
          as [w |] eqn:Hc.
        -- right. apply last_binding_In in Hc.
           apply in_map_iff. exists (k, w). auto.
        -- left. apply last_binding_In in Hk.
           apply in_map_iff. exists (k, v). auto.
      * apply dict_get_None in Hk. contradiction.
    + intros [Hin | Hin]; apply in_map_iff in Hin as ([k' v] & Hk & Hin);
        simpl in Hk; subst k'; eapply extract_bag_info_key; eauto.
Qed.

Lemma extract_bag_info_mapping_witness :
  NoDup (dict_keys [("k", "3"); ("a", "b")]).
Proof.
  exact (proj1 (extract_bag_info_mapping "k=1,a: b,k=2,k: 3"
                  [("k", "3"); ("a", "b")] eq_refl)).
Defined.

Lemma contains_app_l sub a b :
  Str.contains sub a = true -> Str.contains sub (a ++ b) = true.
Proof.
  intros H. apply contains_append in H as (x & y & ->).
  apply contains_append. exists x, (y ++ b)%string.
  now rewrite !append_assoc.
Qed.

Lemma contains_app_r sub a b :
  Str.contains sub b = true -> Str.contains sub (a ++ b) = true.
Proof.
  intros H. apply contains_append in H as (x & y & ->).
  apply contains_append. exists (a ++ x)%string, y.
  now rewrite !append_assoc.
Qed.

(** The key and the value of a pair are parts of one segment. *)
Lemma extract_bag_info_pair_in_segment bag_id m k v sub :
  extract_bag_info bag_id = ok m ->
  dict_get m k = Some v ->
  Str.contains sub k = true \/ Str.contains sub v = true ->
  exists item, In item (Str.split "," bag_id) /\
               Str.contains sub item = true.
Proof.
  intros Hm Hkv Hsub.
  destruct (extract_bag_info_origin _ _ _ _ Hm Hkv)
    as (item & Hin & [(Hitem & _) | (more & Hitem & _)]);
    exists item; (split; [exact Hin |]); rewrite Hitem.
  - destruct Hsub as [Hk | Hv].
    + now apply contains_app_l.
    + now apply contains_app_r, contains_app_r.
  - destruct Hsub as [Hk | Hv].
    + unfold Str.join. rewrite concat_cons by discriminate.
      now apply contains_app_l.
    + destruct (join_In_substring ": " (k :: v :: more) v
                  (or_intror (or_introl eq_refl))) as (a & b & ->).
      now apply contains_substring.
Qed.

(** X4: a parsed key or value never holds a comma, and a key and its value
    together are shorter than the "BAG ID." they were read from. *)
Theorem extract_bag_info_pair_bounds bag_id m k v :
  extract_bag_info bag_id = ok m ->
  dict_get m k = Some v ->
  Str.contains "," k = false /\ Str.contains "," v = false /\
  String.length k + String.length v < String.length bag_id.
Proof.
  intros Hm Hkv.
  assert (Hnone : Str.contains "," k = true \/ Str.contains "," v = true ->
                  False).
  { intros Hsub.
    destruct (extract_bag_info_pair_in_segment _ _ _ _ "," Hm Hkv Hsub)
      as (item & Hin & Hc).
    pose proof (split_pieces "," bag_id comma_nonempty) as Hp.
    rewrite Forall_forall in Hp. rewrite (Hp item Hin) in Hc.
    discriminate Hc. }
  split; [| split; [| eapply extract_bag_info_value_length; eauto]].
  - destruct (Str.contains "," k); [exfalso; auto | reflexivity].
  - destruct (Str.contains "," v); [exfalso; auto | reflexivity].
Qed.

Lemma extract_bag_info_pair_bounds_witness :
  Str.contains "," "B1" = false /\ 3 + 2 < 12.
Proof.
  destruct (extract_bag_info_pair_bounds "Bag=B1,Lot=7"
              [("Bag", "B1"); ("Lot", "7")] "Bag" "B1" eq_refl eq_refl)
    as (_ & Hv & Hlen).
  split; [exact Hv | exact Hlen].
Defined.

Lemma char_count_append c a b :
  char_count c (a ++ b) = char_count c a + char_count c b.
Proof. induction a as [| x a IH]; simpl; [reflexivity | rewrite IH; lia]. Qed.

Lemma split_go_single_piece c cur p rest :
  char_count c p = 0 ->
  Str.split_go (String c "") 0 cur (p ++ String c rest)
  = (cur ++ p)%string :: Str.split_go (String c "") 0 "" rest.
Proof.
  revert cur. induction p as [| a p IH]; intros cur Hp.
  - rewrite append_empty_r.
    apply (split_go_match (String c "") cur rest). discriminate.
  - simpl in Hp. destruct (Ascii.eqb_spec a c) as [-> | Hne]; [lia |].
    change (String a p ++ String c rest)%string
      with (String a (p ++ String c rest)).
    rewrite split_go_char.
    + rewrite IH by exact Hp. now rewrite append_assoc.
    + destruct (prefix (String c "") (String a (p ++ String c rest)))
        eqn:Hpre; [| reflexivity].
      apply prefix_append in Hpre as (r & Hr). injection Hr as Hr _.
      congruence.
Qed.

Lemma split_go_single_last c cur p :
  char_count c p = 0 ->
  Str.split_go (String c "") 0 cur p = [(cur ++ p)%string].
Proof.
  intros Hp. apply contains_false_split_go.
  destruct (Str.contains (String c "") p) eqn:H; [| reflexivity].
  apply (count_contains (String c "") p) in H; [| discriminate].
  rewrite count_single_char in H. lia.
Qed.

(** [sep.join(parts).split(sep) == parts] for a separator of one character
    that no part holds. *)
Lemma split_join_single c l :
  l <> [] -> Forall (fun p => char_count c p = 0) l ->
  Str.split (String c "") (Str.join (String c "") l) = l.
Proof.
  unfold Str.split, Str.join. intros Hne Hall.
  induction l as [| p l IH]; [contradiction |].
  pose proof (Forall_inv Hall) as Hp.
  destruct l as [| q l].
  - simpl. now rewrite split_go_single_last.
  - rewrite concat_cons by discriminate.
    change (p ++ String c "" ++ String.concat (String c "") (q :: l))%string
      with (p ++ String c (String.concat (String c "") (q :: l)))%string.
    rewrite split_go_single_piece by exact Hp.
    rewrite IH; [reflexivity | discriminate | exact (Forall_inv_tail Hall)].
Qed.

Lemma mapM_map_ok {A B} (f : B -> result A) (g : A -> B) xs :
  (forall x, In x xs -> f (g x) = ok x) -> mapM f (map g xs) = ok xs.
Proof.
  induction xs as [| x xs IH]; intros H; simpl; [reflexivity |].
  rewrite (H x) by now left. simpl. rewrite IH; [reflexivity |].
  intros y Hy. apply H. now right.
Qed.

Lemma filter_all {A} (f : A -> bool) l :
  (forall x, In x l -> f x = true) -> filter f l = l.
Proof.
  induction l as [| x l IH]; intros H; simpl; [reflexivity |].
  rewrite (H x) by now left. f_equal. apply IH. intros y Hy. apply H.
  now right.
Qed.

(** X5: writing pairs as [key=value] segments joined by commas and parsing
    the text gives the pairs back, the last pair of a key winning, provided
    no key or value holds a comma or ["="] and no segment holds [": "]. *)
Theorem extract_bag_info_format_pairs pairs :
  Forall plain_pair pairs ->
  extract_bag_info (format_pairs pairs) = ok (dict_update [] pairs)
  /\ forall k, dict_get (dict_update [] pairs) k = last_binding pairs k.
Proof.
  intros Hall. split.
  2: { intros k. rewrite dict_get_update. simpl.
       now destruct (last_binding pairs k). }
  destruct pairs as [| kv0 pairs0]; [reflexivity |].
  set (pairs := kv0 :: pairs0) in *.
  set (fmt := fun kv : string * string =>
                (fst kv ++ "=" ++ snd kv)%string).
  assert (Hitems : Str.split "," (format_pairs pairs) = map fmt pairs).
  { unfold format_pairs. fold fmt. apply (split_join_single ","%char).
    - discriminate.
    - apply Forall_map. eapply Forall_impl; [| exact Hall].
      intros [k v] (Hk & Hv & _). unfold fmt. cbn [fst snd] in *.
      rewrite !char_count_append, Hk, Hv. reflexivity. }
  unfold extract_bag_info, eq_pass, colon_pass. cbv zeta. rewrite Hitems.
  rewrite Forall_forall in Hall.
  rewrite (filter_all (Str.contains "=")).
  2: { intros item Hin. apply in_map_iff in Hin as (kv & <- & _).
       apply contains_append. exists (fst kv), (snd kv). reflexivity. }
  rewrite (filter_none (Str.contains ": ")).
  2: { intros item Hin. apply in_map_iff in Hin as (kv & <- & Hkv).
       apply (Hall kv Hkv). }
  rewrite mapM_map_ok; [reflexivity |].
  intros [k v] Hin. destruct (Hall _ Hin) as (_ & _ & Hk & Hv & _).
  cbn [fst snd] in *. unfold fmt. cbn [fst snd].
  change (k ++ "=" ++ v)%string with (Str.join "=" [k; v]).
  rewrite (split_join_single "="%char [k; v]); [reflexivity | discriminate |].
  repeat constructor; assumption.
Qed.

Lemma extract_bag_info_format_pairs_witness :
  extract_bag_info (format_pairs [("Bag", "B1"); ("Lot", "L1"); ("Bag", "B2")])
  = ok [("Bag", "B2"); ("Lot", "L1")].
Proof.
  apply (extract_bag_info_format_pairs
           [("Bag", "B1"); ("Lot", "L1"); ("Bag", "B2")]).
  repeat (apply Forall_cons; [repeat split |]); apply Forall_nil.
Defined.

(** * Further properties of the combined frame *)

Lemma combined_df_structure ts df cdf :
  combined_df ts df = ok cdf ->
  exists infos scanned,
    Forall2 (fun row info => parsed_fields row = ok info) (rows df) infos /\
    Forall2 (fun r0 v =>
               bag_scanned_manual ts (columns df ++ info_columns infos) r0
               = ok v)
            (rows (concat_info df infos)) scanned /\
    columns cdf = add_column (columns df ++ info_columns infos) scanned_column /\
    rows cdf
    = sort_by time_desc_leb
        (map (fun rv => dict_set (fst rv) scanned_column (snd rv))
             (combine (rows (concat_info df infos)) scanned)).
Proof.
  unfold combined_df. intros H.
  apply bind_ok in H as (infos & Hinfos & H).
  apply bind_ok in H as (scanned & Hsc & H).
  unfold ok in H. injection H as <-.
  apply mapM_ok_Forall2 in Hsc, Hinfos.
  exists infos, scanned. split; [exact Hinfos | split; [exact Hsc |]].
  split; [reflexivity |].
  unfold sort_values_desc. cbn [rows]. f_equal.
  destruct (concat_info df infos) as [cols rs] eqn:Hj. cbn [rows] in *.
  apply (setitem_rows _ _ _ _ _ Hsc).
Qed.

Lemma joined_carries row info v :
  carries row (dict_set (row ++ info_series info) scanned_column v).
Proof.
  intros label Hin Hne. rewrite value_at_set.
  destruct (String.eqb_spec scanned_column label) as [Heq | _];
    [congruence |].
  unfold value_at. rewrite dict_get_app.
  destruct (dict_get row label) eqn:Hg; [reflexivity |].
  apply dict_get_None in Hg. contradiction.
Qed.

(** X6: combining neither drops nor adds a row.  The combined frame has as
    many rows as the sheet, its columns are those of the sheet, then the
    parsed keys, then "Bag Scanned & Manual"; every row of it shows the
    cells of one sheet row unchanged, and every sheet row is shown so. *)
Theorem combined_df_keeps_rows ts df cdf :
  combined_df ts df = ok cdf ->
  List.length (rows cdf) = List.length (rows df) /\
  (exists infos,
     mapM parsed_fields (rows df) = ok infos /\
     columns cdf
     = add_column (columns df ++ info_columns infos) scanned_column) /\
  (forall r, In r (rows cdf) -> exists row, In row (rows df) /\ carries row r) /\
  (forall row, In row (rows df) -> exists r, In r (rows cdf) /\ carries row r).
Proof.
  intros Hc.
  destruct (combined_df_structure _ _ _ Hc)
    as (infos & scanned & Hinfos & Hsc & Hcols & Hrows).
  split; [| split; [| split]].
  - rewrite Hrows. rewrite (Permutation_length (sort_by_perm _ _)).
    rewrite length_map, length_combine.
    rewrite <- (Forall2_length Hsc), Nat.min_id.
    unfold concat_info. cbn [rows]. rewrite length_map, length_combine.
    rewrite <- (Forall2_length Hinfos). apply Nat.min_id.
  - exists infos. split; [now apply mapM_ok_Forall2 | exact Hcols].
  - intros r Hr. rewrite Hrows in Hr. apply sort_by_In in Hr.
    apply in_map_iff in Hr as ([r0 v] & <- & Hin). cbn [fst snd].
    apply in_combine_l in Hin.
    destruct (concat_info_rows _ _ _ Hinfos Hin)
      as (row & info & Hrow & _ & ->).
    exists row. split; [exact Hrow | apply joined_carries].
  - intros row Hrow.
    destruct (Forall2_In_l _ _ _ _ Hinfos Hrow) as (info & Hin & _).
    assert (Hj : In (row ++ info_series info) (rows (concat_info df infos))).
    { unfold concat_info. cbn [rows]. apply in_map_iff.
      exists (row, info). auto. }
    destruct (Forall2_In_l _ _ _ _ Hsc Hj) as (v & Hv & _).
    exists (dict_set (row ++ info_series info) scanned_column v). split.
    + rewrite Hrows. apply sort_by_In. apply in_map_iff.
      exists (row ++ info_series info, v). auto.
    + apply joined_carries.
Qed.

Lemma combined_df_keeps_rows_witness :
  exists cdf, combined_df sample_str sheet_mixed = ok cdf /\
              List.length (rows cdf) = 4.
Proof.
  destruct (combined_df sample_str sheet_mixed) as [e | cdf] eqn:Hc;
    [discriminate Hc |].
  exists cdf. split; [reflexivity |].
  exact (proj1 (combined_df_keeps_rows sample_str sheet_mixed cdf Hc)).
Defined.

Lemma insert_by_sorted {A} (leb : A -> A -> bool) x l :
  (forall a b, leb a b = true \/ leb b a = true) ->
  Sorted (fun a b => leb a b = true) l ->
  Sorted (fun a b => leb a b = true) (insert_by leb x l).
Proof.
  intros Htotal. induction l as [| y l IH]; intros Hs; simpl.
  - repeat constructor.
  - destruct (leb x y) eqn:Hxy.
    + constructor; [exact Hs | constructor; exact Hxy].
    + inversion Hs as [| ? ? Hl Hhd]; subst.
      constructor; [apply IH, Hl |].
      assert (Hyx : leb y x = true)
        by (destruct (Htotal x y); [congruence | assumption]).
      destruct l as [| z l]; simpl.
      * constructor. exact Hyx.
      * destruct (leb x z); constructor; [exact Hyx |].
        inversion Hhd; assumption.
Qed.

Lemma sort_by_sorted {A} (leb : A -> A -> bool) l :
  (forall a b, leb a b = true \/ leb b a = true) ->
  Sorted (fun a b => leb a b = true) (sort_by leb l).
Proof.
  intros Htotal. induction l as [| x l IH]; simpl; [constructor |].
  now apply insert_by_sorted.
Qed.

Lemma time_desc_leb_order r1 r2 :
  time_desc_leb r1 r2 = true <-> time_order r1 r2.
Proof.
  unfold time_desc_leb, time_order, AddedTime.
  destruct (value_at r1 added_time_column), (value_at r2 added_time_column);
    try rewrite Z.leb_le; intuition discriminate.
Qed.

Lemma time_desc_leb_total r1 r2 :
  time_desc_leb r1 r2 = true \/ time_desc_leb r2 r1 = true.
Proof.
  unfold time_desc_leb.
  destruct (value_at r1 added_time_column), (value_at r2 added_time_column);
    auto.
  rewrite !Z.leb_le. lia.
Qed.

Lemma time_order_trans r1 r2 r3 :
  time_order r1 r2 -> time_order r2 r3 -> time_order r1 r3.
Proof.
  unfold time_order.
  destruct (AddedTime r1), (AddedTime r2), (AddedTime r3);
    try tauto; lia.
Qed.

Lemma StronglySorted_weaken {A} (R R' : A -> A -> Prop) l :
  (forall a b, R a b -> R' a b) -> StronglySorted R l -> StronglySorted R' l.
Proof.
  intros H. induction 1 as [| a l Hs IH Hall]; constructor; [exact IH |].
  eapply Forall_impl; [| exact Hall]. auto.
Qed.

Lemma sort_values_time_order rs :
  StronglySorted time_order (sort_by time_desc_leb rs).
Proof.
  apply Sorted_StronglySorted.
  - intros a b c. apply time_order_trans.
  - pose proof (sort_by_sorted time_desc_leb rs time_desc_leb_total) as Hs.
    induction Hs as [| a l Hl IH Hhd]; constructor; [exact IH |].
    destruct Hhd; constructor. now apply time_desc_leb_order.
Qed.

(** X7: the combined frame is in the order of line 51: no row comes before
    a row with a later "Added Time", and the rows without an "Added Time"
    come last. *)
Theorem combined_df_time_order ts df cdf :
  combined_df ts df = ok cdf ->
  StronglySorted time_order (rows cdf) /\
  forall before r after t,
    rows cdf = before ++ r :: after ->
    AddedTime r = VTime t ->
    Forall (fun r' => exists t', AddedTime r' = VTime t' /\ (t <= t')%Z) before.
Proof.
  intros Hc.
  destruct (combined_df_structure _ _ _ Hc) as (infos & scanned & _ & _ & _ & Hrows).
  assert (Hs : StronglySorted time_order (rows cdf))
    by (rewrite Hrows; apply sort_values_time_order).
  split; [exact Hs |].
  intros before r after t Hsplit Ht. rewrite Hsplit in Hs. clear - Hs Ht.
  induction before as [| b before IH]; [constructor |].
  simpl in Hs. inversion Hs as [| ? ? Hs' Hall]; subst.
  constructor; [| apply IH, Hs'].
  rewrite Forall_forall in Hall.
  assert (Hbr : time_order b r) by (apply Hall, in_or_app; right; now left).
  unfold time_order in Hbr. rewrite Ht in Hbr.
  destruct (AddedTime b) as [k | s | t' | repr]; try contradiction.
  exists t'. auto.
Qed.

Lemma combined_df_time_order_witness :
  exists cdf, combined_df sample_str sheet_mixed = ok cdf /\
              map AddedTime (rows cdf) = [VTime 9; VTime 7; VTime 5; VTime 1] /\
              StronglySorted time_order (rows cdf).
Proof.
  destruct (combined_df sample_str sheet_mixed) as [e | cdf] eqn:Hc;
    [discriminate Hc |].
  exists cdf. split; [reflexivity | split].
  - vm_compute in Hc. injection Hc as <-. reflexivity.
  - exact (proj1 (combined_df_time_order sample_str sheet_mixed cdf Hc)).
Defined.

(** X8: on a sheet without a column "Bag" of its own, "Bag Scanned & Manual"
    is a text or missing on every row, and a text there is never longer
    than the row's "BAG ID.". *)
Theorem scanned_id_shape ts df cdf r :
  combined_df ts df = ok cdf ->
  well_formed df ->
  in_columns "Bag" (columns df) = false ->
  In r (rows cdf) ->
  text_or_missing (ScannedId r) /\
  forall s, ScannedId r = VStr s ->
            exists b, BagId r = VStr b /\ String.length s <= String.length b.
Proof.
  intros Hc Hwf Hbag Hr.
  destruct (enriched_row_rule _ _ _ _ Hc Hwf Hbag Hr) as (parsed & Hp & Hrule).
  unfold parsed_fields in Hp. fold (BagId r) in Hp.
  apply parse_cell_ok in Hp as [(Hna & ->) | (b & parts & Hb & Hparts & ->)].
  - assert (Hs : ScannedId r = BagId r \/ ScannedId r = VNull NaN)
      by (rewrite Hrule; destruct (Nat.ltb 20 _); auto).
    split.
    + left. destruct Hs as [-> | ->]; [exact Hna | reflexivity].
    + intros s Hs'. destruct Hs as [Hs | Hs]; rewrite Hs in Hs';
        [rewrite Hs' in Hna |]; discriminate.
  - rewrite Hb in Hrule. cbn [py_str] in Hrule.
    destruct (Nat.ltb 20 (String.length b)).
    + unfold bag_field in Hrule.
      destruct (dict_get parts "Bag") as [v |] eqn:Hv; rewrite Hrule.
      * split; [right; eauto |]. intros s Hs. injection Hs as <-.
        exists b. split; [exact Hb |].
        pose proof (extract_bag_info_value_length _ _ _ _ Hparts Hv). lia.
      * split; [now left | discriminate].
    + rewrite Hrule. split; [right; eauto |].
      intros s Hs. injection Hs as <-. exists b. split; [exact Hb | lia].
Qed.

Lemma scanned_id_shape_witness :
  exists cdf r, combined_df sample_str sheet_mixed = ok cdf /\
                In r (rows cdf) /\ text_or_missing (ScannedId r).
Proof.
  destruct (combined_df sample_str sheet_mixed) as [e | cdf] eqn:Hc;
    [discriminate Hc |].
  pose (r := sheet_row (VTime 7) (VStr "B1")
             ++ [("Bag Scanned & Manual", VStr "B1")]).
  assert (Hr : In r (rows cdf)).
  { vm_compute in Hc. injection Hc as <-. simpl. right. now left. }
  assert (Hwf : well_formed sheet_mixed).
  { unfold well_formed. simpl.
    repeat (apply Forall_cons; [intros k Hk; simpl in Hk |- *; tauto |]).
    apply Forall_nil. }
  exists cdf, r. split; [reflexivity | split; [exact Hr |]].
  exact (proj1 (scanned_id_shape sample_str sheet_mixed cdf r Hc Hwf eq_refl Hr)).
Defined.

(** * Further properties of the duplicates table *)

Lemma grouped_duplicates_unfold ts cdf :
  in_columns scanned_column (columns cdf) = true ->
  grouped_duplicates ts cdf
  = mapM (fun key =>
            summarize ts (columns cdf)
              (get_group scanned_column key
                 (filter (fun r => Nat.leb 2 (occurrences (ScannedId r)
                                                (map ScannedId (rows cdf))))
                         (rows cdf))))
         (group_keys
            (map ScannedId
               (filter (fun r => Nat.leb 2 (occurrences (ScannedId r)
                                              (map ScannedId (rows cdf))))
                       (rows cdf)))).
Proof.
  intros Hcol. unfold grouped_duplicates.
  rewrite (duplicates_df_eq cdf Hcol). cbn [bind ok].
  unfold column. cbn [columns rows]. rewrite Hcol. reflexivity.
Qed.

Lemma duplicated_key_In cdf key :
  In key (group_keys
            (map ScannedId
               (filter (fun r => Nat.leb 2 (occurrences (ScannedId r)
                                              (map ScannedId (rows cdf))))
                       (rows cdf))))
  <-> isna key = false /\ 2 <= occurrences key (map ScannedId (rows cdf)).
Proof.
  rewrite group_keys_In, in_map_iff. split.
  - intros (Hna & r & Hr & Hin). split; [exact Hna |].
    apply filter_In in Hin as [_ Hocc].
    apply (proj1 (Nat.leb_le 2 _)) in Hocc. now rewrite Hr in Hocc.
  - intros (Hna & Hocc). split; [exact Hna |].
    assert (Hin : In key (map ScannedId (rows cdf)))
      by (apply occurrences_In; lia).
    apply in_map_iff in Hin as (r & Hr & Hin).
    exists r. split; [exact Hr |]. apply filter_In. split; [exact Hin |].
    apply (proj2 (Nat.leb_le 2 _)). now rewrite Hr.
Qed.

(** X9: when no non-null "Bag Scanned & Manual" value occurs twice, the
    duplicates table is empty and nothing is raised, even on a frame without
    the columns "Seal" and "Lot".  When such a value occurs twice, a frame
    without "Seal" makes the lambda raise [KeyError] for "Seal", and a frame
    with "Seal" but without "Lot" for "Lot". *)
Theorem grouped_duplicates_edges ts cdf :
  in_columns scanned_column (columns cdf) = true ->
  ((forall key, isna key = false ->
                occurrences key (map ScannedId (rows cdf)) <= 1) ->
   grouped_duplicates ts cdf = ok [])
  /\ (in_columns added_time_column (columns cdf) = true ->
      in_columns kico_seal_column (columns cdf) = true ->
      (exists key, isna key = false /\
                   2 <= occurrences key (map ScannedId (rows cdf))) ->
      (in_columns "Seal" (columns cdf) = false ->
       grouped_duplicates ts cdf = raise (KeyError "Seal"))
      /\ (in_columns "Seal" (columns cdf) = true ->
          in_columns "Lot" (columns cdf) = false ->
          grouped_duplicates ts cdf = raise (KeyError "Lot"))).
Proof.
  intros Hcol. rewrite (grouped_duplicates_unfold ts cdf Hcol). split.
  - intros Hnone.
    destruct (group_keys _) as [| key keys] eqn:Hk; [reflexivity |].
    assert (Hin : In key (key :: keys)) by now left.
    rewrite <- Hk in Hin. apply duplicated_key_In in Hin as (Hna & Hocc).
    specialize (Hnone key Hna). lia.
  - intros Htime Hseal (key & Hna & Hocc).
    assert (Hin : In key (group_keys
              (map ScannedId
                 (filter (fun r => Nat.leb 2 (occurrences (ScannedId r)
                                                (map ScannedId (rows cdf))))
                         (rows cdf)))))
      by (apply duplicated_key_In; auto).
    destruct (group_keys _) as [| k keys]; [contradiction |].
    split.
    + intros Hno. cbn [mapM]. unfold summarize, column. cbv zeta.
      cbn [columns rows]. rewrite Htime, Hcol, Hseal, Hno. reflexivity.
    + intros Hyes Hno. cbn [mapM]. unfold summarize, column. cbv zeta.
      cbn [columns rows]. rewrite Htime, Hcol, Hseal, Hyes, Hno. reflexivity.
Qed.

Lemma occurrences_NoDup key vals :
  NoDup vals -> occurrences key vals <= 1.
Proof.
  unfold occurrences. induction 1 as [| v vals Hn _ IH]; simpl; [lia |].
  destruct (cell_eqb key v) eqn:Hk; [| exact IH].
  apply cell_eqb_eq in Hk. subst v. simpl.
  rewrite filter_none; [simpl; lia |].
  intros w Hw. destruct (cell_eqb key w) eqn:Hkw; [| reflexivity].
  apply cell_eqb_eq in Hkw. now subst w.
Qed.

Lemma grouped_duplicates_edges_witness :
  grouped_duplicates sample_str
    (mkDataFrame (sheet_columns ++ ["Bag Scanned & Manual"])
       [sheet_row (VTime 1) (VStr "A") ++ [("Bag Scanned & Manual", VStr "A")];
        sheet_row (VTime 2) (VStr "B") ++ [("Bag Scanned & Manual", VStr "B")]])
  = ok [].
Proof.
  apply (grouped_duplicates_edges sample_str
           (mkDataFrame (sheet_columns ++ ["Bag Scanned & Manual"])
              [sheet_row (VTime 1) (VStr "A")
               ++ [("Bag Scanned & Manual", VStr "A")];
               sheet_row (VTime 2) (VStr "B")
               ++ [("Bag Scanned & Manual", VStr "B")]])
           eq_refl).
  intros key _. apply occurrences_NoDup.
  change (NoDup [VStr "A"; VStr "B"]).
  constructor; [simpl; intros [H | []]; discriminate H |].
  constructor; [simpl; tauto | constructor].
Defined.



Lemma cell_leb_total a b : cell_leb a b = true \/ cell_leb b a = true.
Proof.
  destruct a as [k1 | s1 | t1 | r1], b as [k2 | s2 | t2 | r2]; simpl; auto.
  - apply String.leb_total.
  - rewrite !Z.leb_le. lia.
  - apply String.leb_total.
Qed.

(** X11: the summary rows come in ascending order of their key, as
    [groupby] sorts its groups; two neighbouring text keys are in the order
    of Python's string comparison and differ. *)
Theorem grouped_duplicates_key_order ts cdf view :
  grouped_duplicates ts cdf = ok view ->
  Sorted (fun a b => cell_leb a b = true) (map ScannedId view) /\
  forall before a b after,
    map ScannedId view = before ++ VStr a :: VStr b :: after ->
    String.leb a b = true /\ a <> b.
Proof.
  intros H.
  destruct (grouped_duplicates_keys _ _ _ H) as (dups & _ & Hkeys).
  assert (Hs : Sorted (fun a b => cell_leb a b = true) (map ScannedId view)).
  { rewrite Hkeys. unfold group_keys. apply sort_by_sorted, cell_leb_total. }
  assert (Hnd : NoDup (map ScannedId view))
    by (rewrite Hkeys; apply group_keys_NoDup).
  split; [exact Hs |].
  intros before a b after Heq. rewrite Heq in Hs, Hnd. clear - Hs Hnd.
  induction before as [| x before IH]; simpl in *.
  - split.
    + inversion Hs as [| ? ? _ Hhd]; subst. inversion Hhd; subst. assumption.
    + intros ->. inversion Hnd as [| ? ? Hn _]; subst. apply Hn. now left.
  - apply IH.
    + inversion Hs; assumption.
    + inversion Hnd; assumption.
Qed.

Lemma grouped_duplicates_key_order_witness :
  exists view,
    grouped_duplicates sample_str
      (mkDataFrame
         (sheet_columns ++ ["Seal"; "Lot"; "Bag Scanned & Manual"])
         [sheet_row (VTime 1) (VStr "B2") ++ [("Bag Scanned & Manual", VStr "B2")];
          sheet_row (VTime 2) (VStr "B1") ++ [("Bag Scanned & Manual", VStr "B1")];
          sheet_row (VTime 3) (VStr "B2") ++ [("Bag Scanned & Manual", VStr "B2")];
          sheet_row (VTime 4) (VStr "B1") ++ [("Bag Scanned & Manual", VStr "B1")]])
    = ok view /\
    map ScannedId view = [VStr "B1"; VStr "B2"] /\
    Sorted (fun a b => cell_leb a b = true) (map ScannedId view).
Proof.
  set (cdf := mkDataFrame _ _).
  destruct (grouped_duplicates sample_str cdf) as [e | view] eqn:Hv;
    [discriminate Hv |].
  exists view. split; [reflexivity | split].
  - vm_compute in Hv. injection Hv as <-. reflexivity.
  - exact (proj1 (grouped_duplicates_key_order sample_str cdf view Hv)).
Defined.

(** * Further properties of the export *)

Lemma set_rows_other label l' rs values :
  String.eqb label l' = false ->
  List.length rs = List.length values ->
  map (fun r => value_at r l') (set_rows label rs values)
  = map (fun r => value_at r l') rs.
Proof.
  intros Hne. revert values.
  induction rs as [| r rs IH]; intros [| v values] H; simpl in *;
    try reflexivity; try discriminate.
  rewrite value_at_set, Hne. f_equal. apply IH. lia.
Qed.

Lemma setitem_values_other df label l' values :
  String.eqb label l' = false ->
  List.length (rows df) = List.length values ->
  column_values (setitem df label values) l' = column_values df l'.
Proof.
  intros Hne H. unfold column_values.
  rewrite setitem_rows_sized by exact H. now apply set_rows_other.
Qed.

Lemma setitem_scalar_values_other df label l' v :
  String.eqb label l' = false ->
  column_values (setitem_scalar df label v) l' = column_values df l'.
Proof.
  intros Hne. unfold column_values, setitem_scalar. cbn [rows].
  rewrite map_map. apply map_ext. intros r. now rewrite value_at_set, Hne.
Qed.

Lemma setitem_empty_values df label values :
  rows df = [] -> column_values (setitem df label values) label = values.
Proof.
  intros H. unfold column_values, setitem. cbn [rows]. rewrite H.
  apply set_rows_values. now rewrite length_map.
Qed.

Lemma map_const_length {A B C} (c : C) (xs : list A) (ys : list B) :
  List.length xs = List.length ys ->
  map (fun _ => c) xs = map (fun _ => c) ys.
Proof.
  revert ys. induction xs as [| x xs IH]; intros [| y ys] H; simpl in *;
    try reflexivity; try discriminate. f_equal. apply IH. lia.
Qed.

Lemma in_columns_add_self cols label :
  in_columns label (add_column cols label) = true.
Proof.
  unfold add_column. destruct (in_columns label cols) eqn:H; [exact H |].
  rewrite in_columns_app. simpl. rewrite String.eqb_refl.
  now rewrite orb_true_r.
Qed.

(** A turn that does not create the time column: the new column holds the
    values of the sheet column, or [None]; the others are kept. *)
Lemma mapping_step_values ts source mapped original_col new_col :
  in_columns "BAG_AHK_LP_SAMPLING_TS" (add_column (columns mapped) new_col)
  = false ->
  List.length (rows mapped) = List.length (rows source) ->
  column_values (mapping_step ts source mapped (original_col, new_col)) new_col
  = export_values source original_col
  /\ forall l', String.eqb new_col l' = false ->
       column_values (mapping_step ts source mapped (original_col, new_col)) l'
       = column_values mapped l'.
Proof.
  intros H Hlen. rewrite mapping_step_plain by exact H.
  unfold export_values.
  destruct (in_columns original_col (columns source)).
  - assert (Hl : List.length (rows mapped)
                 = List.length (column_values source original_col))
      by (unfold column_values; now rewrite length_map).
    split.
    + now rewrite setitem_values.
    + intros l' Hne. now apply setitem_values_other.
  - split.
    + rewrite setitem_scalar_values. now apply map_const_length.
    + intros l' Hne. now apply setitem_scalar_values_other.
Qed.

(** The last turn leaves every column but the time column as it was. *)
Lemma mapping_step_last ts source mapped l' :
  String.eqb "BAG_AHK_LP_SAMPLING_TS" l' = false ->
  List.length (rows mapped) = List.length (rows source) ->
  column_values
    (mapping_step ts source mapped ("SAMPLING TIME", "BAG_AHK_LP_SAMPLING_TS"))
    l'
  = column_values mapped l'
  /\ List.length
       (rows (mapping_step ts source mapped
                ("SAMPLING TIME", "BAG_AHK_LP_SAMPLING_TS")))
     = List.length (rows source).
Proof.
  intros Hne Hlen. unfold mapping_step, append_offsets. cbn [fold_left].
  set (m4 := if in_columns "SAMPLING TIME" (columns source)
             then setitem mapped "BAG_AHK_LP_SAMPLING_TS"
                    (column_values source "SAMPLING TIME")
             else setitem_scalar mapped "BAG_AHK_LP_SAMPLING_TS"
                    (VNull PyNone)).
  assert (C4 : in_columns "BAG_AHK_LP_SAMPLING_TS" (columns m4) = true).
  { unfold m4. destruct (in_columns "SAMPLING TIME" (columns source));
      cbn [columns setitem setitem_scalar]; apply in_columns_add_self. }
  assert (L4 : List.length (rows m4) = List.length (rows source)).
  { unfold m4. destruct (in_columns "SAMPLING TIME" (columns source)).
    - rewrite setitem_length; unfold column_values; now rewrite length_map.
    - unfold setitem_scalar. cbn [rows]. now rewrite length_map. }
  assert (V4 : column_values m4 l' = column_values mapped l').
  { unfold m4. destruct (in_columns "SAMPLING TIME" (columns source)).
    - apply setitem_values_other; [exact Hne |].
      unfold column_values. now rewrite length_map.
    - now apply setitem_scalar_values_other. }
  rewrite C4. split.
  - rewrite setitem_values_other; [exact V4 | exact Hne |].
    unfold column_values. now rewrite !length_map.
  - rewrite setitem_length; unfold column_values; now rewrite !length_map.
Qed.

(** The three columns that the offset does not touch. *)
Lemma mapped_df_for_download_columns ts source :
  in_columns scanned_column (columns source) = true ->
  List.length (rows (mapped_df_for_download ts source))
  = List.length (rows source)
  /\ column_values (mapped_df_for_download ts source) "name"
     = map ScannedId (rows source)
  /\ column_values (mapped_df_for_download ts source) "PRN_AHK_SEAL"
     = export_values source "AHK SEAL NO."
  /\ column_values (mapped_df_for_download ts source) "PRN_WH_GROSS_WEIGHT"
     = export_values source "WAREHOUSE PLATFORM SCALE GROSS WEIGHT (KG)".
Proof.
  intros Hname. unfold mapped_df_for_download, column_mappings.
  cbn [fold_left].
  assert (H1 : mapping_step ts source (mkDataFrame [] [])
                 ("Bag Scanned & Manual", "name")
               = setitem (mkDataFrame [] []) "name"
                   (column_values source "Bag Scanned & Manual")).
  { rewrite mapping_step_plain by reflexivity.
    unfold scanned_column in Hname. now rewrite Hname. }
  rewrite H1. clear H1.
  set (m1 := setitem (mkDataFrame [] []) "name"
               (column_values source "Bag Scanned & Manual")).
  assert (L1 : List.length (rows m1) = List.length (rows source)).
  { unfold m1. rewrite setitem_empty_length by reflexivity.
    unfold column_values. apply length_map. }
  assert (C1 : columns m1 = ["name"]) by reflexivity.
  assert (N1 : column_values m1 "name" = map ScannedId (rows source))
    by (unfold m1; now rewrite setitem_empty_values).
  destruct (mapping_step_length ts source m1 "AHK SEAL NO." "PRN_AHK_SEAL")
    as [L2 C2]; [rewrite C1; reflexivity | exact L1 |].
  destruct (mapping_step_values ts source m1 "AHK SEAL NO." "PRN_AHK_SEAL")
    as [S2 O2]; [rewrite C1; reflexivity | exact L1 |].
  set (m2 := mapping_step ts source m1 ("AHK SEAL NO.", "PRN_AHK_SEAL")) in *.
  rewrite C1 in C2. change (columns m2 = ["name"; "PRN_AHK_SEAL"]) in C2.
  destruct (mapping_step_length ts source m2
              "WAREHOUSE PLATFORM SCALE GROSS WEIGHT (KG)"
              "PRN_WH_GROSS_WEIGHT")
    as [L3 C3]; [rewrite C2; reflexivity | exact L2 |].
  destruct (mapping_step_values ts source m2
              "WAREHOUSE PLATFORM SCALE GROSS WEIGHT (KG)"
              "PRN_WH_GROSS_WEIGHT")
    as [S3 O3]; [rewrite C2; reflexivity | exact L2 |].
  set (m3 := mapping_step ts source m2
               ("WAREHOUSE PLATFORM SCALE GROSS WEIGHT (KG)",
                "PRN_WH_GROSS_WEIGHT")) in *.
  split; [exact (proj2 (mapping_step_last ts source m3 "name" eq_refl L3)) |].
  split; [| split].
  - rewrite (proj1 (mapping_step_last ts source m3 "name" eq_refl L3)).
    rewrite (O3 "name" eq_refl), (O2 "name" eq_refl). exact N1.
  - rewrite (proj1 (mapping_step_last ts source m3 "PRN_AHK_SEAL" eq_refl L3)).
    rewrite (O3 "PRN_AHK_SEAL" eq_refl). exact S2.
  - rewrite (proj1 (mapping_step_last ts source m3 "PRN_WH_GROSS_WEIGHT"
                      eq_refl L3)).
    exact S3.
Qed.

(** X12: the export has one row for each row of the frame it is made from,
    in the same order; its "name" is the row's "Bag Scanned & Manual", and
    "PRN_AHK_SEAL" and "PRN_WH_GROSS_WEIGHT" are the row's "AHK SEAL NO." and
    "WAREHOUSE PLATFORM SCALE GROSS WEIGHT (KG)", or [None] on every row when
    the frame has no such column; the offset of lines 115-117 touches none
    of the three. *)
Theorem export_passes_columns ts source :
  in_columns scanned_column (columns source) = true ->
  List.length (rows (mapped_df_for_download ts source))
  = List.length (rows source)
  /\ column_values (mapped_df_for_download ts source) "name"
     = map ScannedId (rows source)
  /\ column_values (mapped_df_for_download ts source) "PRN_AHK_SEAL"
     = export_values source "AHK SEAL NO."
  /\ column_values (mapped_df_for_download ts source) "PRN_WH_GROSS_WEIGHT"
     = export_values source "WAREHOUSE PLATFORM SCALE GROSS WEIGHT (KG)".
Proof. apply mapped_df_for_download_columns. Qed.

Lemma export_passes_columns_witness :
  column_values
    (mapped_df_for_download sample_str
       (mkDataFrame (sheet_columns ++ ["Bag Scanned & Manual"])
          [sheet_row (VTime 1) (VStr "B1")
           ++ [("Bag Scanned & Manual", VStr "B1")]]))
    "PRN_AHK_SEAL"
  = [VStr "S1"].
Proof.
  exact (proj1 (proj2 (proj2
           (export_passes_columns sample_str
              (mkDataFrame (sheet_columns ++ ["Bag Scanned & Manual"])
                 [sheet_row (VTime 1) (VStr "B1")
                  ++ [("Bag Scanned & Manual", VStr "B1")]])
              eq_refl)))).
Defined.

(** * Properties of a whole run *)











